(** * Product cut sheets and certifications manager: export subsystem

    A shallow embedding of the download and bulk-export routes of
    [product_cut_sheets_certifications_manager_flask_app.py]:
    [_image_to_pdf_bytes], [_cert_as_pdf_stream], [_merge_pdfs_stream],
    [download_combined] and [bulk_download], with the string helpers they
    rely on ([str.strip], [str.replace], [Path.suffix], [str.lower],
    [int]).

    The database table is a finite map from primary keys to rows, the
    upload directory a finite map from paths to file contents.  View
    functions run in a state-and-exception monad whose state also holds the
    flashed messages of the request and the ZIP archive under
    construction. *)

From Stdlib Require Import ZArith Ascii String List Bool Lia.
From stdpp Require Import base option gmap strings list.

Local Open Scope string_scope.
Local Open Scope list_scope.
Local Open Scope Z_scope.

(** ** Python string helpers *)

Module Py.

Definition chars (s : string) : list ascii := list_ascii_of_string s.
Definition str_of (l : list ascii) : string := string_of_list_ascii l.

(** [str.isspace] on the ASCII range. *)
Definition is_space (c : ascii) : bool :=
  let n := nat_of_ascii c in
  ((9 <=? n)%nat && (n <=? 13)%nat) || ((28 <=? n)%nat && (n <=? 32)%nat).

Fixpoint lstrip_chars (sp : ascii -> bool) (l : list ascii) : list ascii :=
  match l with
  | c :: r => if sp c then lstrip_chars sp r else l
  | [] => []
  end.

Definition strip_chars (sp : ascii -> bool) (l : list ascii) : list ascii :=
  rev (lstrip_chars sp (rev (lstrip_chars sp l))).

(** [s.strip()] *)
Definition strip (s : string) : string :=
  str_of (strip_chars is_space (chars s)).

(** [s.replace(a, b)] for one-character [a] and [b]. *)
Definition replace_char (a b : ascii) (s : string) : string :=
  str_of (map (fun c => if Ascii.eqb c a then b else c) (chars s)).

Definition lower_char (c : ascii) : ascii :=
  let n := nat_of_ascii c in
  if ((65 <=? n)%nat && (n <=? 90)%nat)%bool then ascii_of_nat (n + 32) else c.

(** [s.lower()] on the ASCII range. *)
Definition lower (s : string) : string := str_of (map lower_char (chars s)).

(** The characters before the first occurrence of [c], and those after
    it; [None] when [c] does not occur. *)
Fixpoint split_first (c : ascii) (l : list ascii)
  : option (list ascii * list ascii) :=
  match l with
  | [] => None
  | x :: r =>
      if Ascii.eqb x c then Some ([], r)
      else match split_first c r with
           | Some (a, b) => Some (x :: a, b)
           | None => None
           end
  end.

(** [PurePath.name]: the final path component. *)
Definition path_name (path : string) : string :=
  match split_first "/" (rev (chars path)) with
  | Some (a, _) => str_of (rev a)
  | None => path
  end.

(** [PurePath.suffix]: with [i = name.rfind('.')], the slice [name[i:]]
    when [0 < i < len(name) - 1], the empty string otherwise. *)
Definition suffix (path : string) : string :=
  match split_first "." (rev (chars (path_name path))) with
  | Some (ext_rev, stem_rev) =>
      match ext_rev, stem_rev with
      | _ :: _, _ :: _ => str_of ("."%char :: rev ext_rev)
      | _, _ => ""
      end
  | None => ""
  end.

(** Truthiness of an optional string: [None] and [''] are falsy. *)
Definition truthy (o : option string) : bool :=
  match o with
  | Some s => negb (String.eqb s "")
  | None => false
  end.

Definition is_digit (c : ascii) : bool :=
  let n := nat_of_ascii c in (48 <=? n)%nat && (n <=? 57)%nat.

Definition digit_val (c : ascii) : Z := Z.of_nat (nat_of_ascii c) - 48.

(** The digit part of a base-10 literal: at least one digit, and single
    underscores only between two digits. *)
Fixpoint parse_digits (after_digit : bool) (acc : Z) (l : list ascii)
  : option Z :=
  match l with
  | [] => if after_digit then Some acc else None
  | c :: r =>
      if is_digit c then parse_digits true (10 * acc + digit_val c) r
      else if Ascii.eqb c "_" then
        if after_digit then parse_digits false acc r else None
      else None
  end.

(** The whitespace [int] skips around a literal: the C locale's, which
    leaves out the separators 28 to 31 that [str.isspace] accepts. *)
Definition is_c_space (c : ascii) : bool :=
  let n := nat_of_ascii c in
  ((9 <=? n)%nat && (n <=? 13)%nat) || (n =? 32)%nat.

(** [int(s)]: surrounding whitespace is dropped, then an optional sign
    and the digits.  [None] stands for the [ValueError]. *)
Definition int (s : string) : option Z :=
  match strip_chars is_c_space (chars s) with
  | "+"%char :: r => parse_digits false 0 r
  | "-"%char :: r => Z.opp <$> parse_digits false 0 r
  | l => parse_digits false 0 l
  end.

End Py.

(** ** Data model *)

Definition bytes : Type := list Byte.byte.

(** [s.encode("utf-8")] on the ASCII range. *)
Definition encode (s : string) : bytes := list_byte_of_string s.

(** The columns of [Product] the routes read. *)
Record Product : Type := mkProduct {
  id : Z;
  name : string;
  sku : option string;
  model_number : option string;
  notes : option string;
  cutsheet_filename : option string;
  cert_filename : option string;
  image_filename : option string
}.

(** Upload directories, relative to [BASE_DIR]. *)
Definition UPLOAD_DIR : string := "uploads".
Definition CUTSHEETS_DIR : string := UPLOAD_DIR +:+ "/cutsheets".
Definition CERTS_DIR : string := UPLOAD_DIR +:+ "/certifications".
Definition IMAGES_DIR : string := UPLOAD_DIR +:+ "/images".

(** [dir / filename] for the relative file names the application stores. *)
Definition path_join (dir filename : string) : string :=
  dir +:+ "/" +:+ filename.

Definition cutsheet_path (p : Product) : option string :=
  if Py.truthy (cutsheet_filename p)
  then path_join CUTSHEETS_DIR <$> cutsheet_filename p else None.

Definition cert_path (p : Product) : option string :=
  if Py.truthy (cert_filename p)
  then path_join CERTS_DIR <$> cert_filename p else None.

Definition image_path (p : Product) : option string :=
  if Py.truthy (image_filename p)
  then path_join IMAGES_DIR <$> image_filename p else None.

(** [a or b] where [a] is an optional string. *)
Definition py_or (a : option string) (b : string) : string :=
  match a with
  | Some s => if Py.truthy a then s else b
  | None => b
  end.

(** [p.model_number or p.sku or p.name] *)
Definition label_of (p : Product) : string :=
  py_or (model_number p) (py_or (sku p) (name p)).

(** Exceptions.  All of them derive from [Exception]. *)
Inductive exn : Type :=
| FileNotFoundError (msg : string)
| ValueError (msg : string)
| NotFound (description : string)      (* werkzeug: raised by [abort(404)] *)
| LibraryError (cls msg : string).     (* raised inside PyPDF2 or Pillow *)

(** [str(e)] *)
Definition str_exn (e : exn) : string :=
  match e with
  | FileNotFoundError m => m
  | ValueError m => m
  | NotFound d => "404 Not Found: " +:+ d
  | LibraryError _ m => m
  end.

Definition archive : Type := list (string * bytes).

Record state : Type := mkState {
  products : gmap Z Product;        (* the [product] table *)
  files : gmap string bytes;        (* regular files under [BASE_DIR] *)
  flashes : list (string * string); (* flashed (category, message) pairs *)
  zf : archive                      (* entries of the open [ZipFile] *)
}.

(** What a view returns. *)
Inductive payload : Type :=
| FileAt (path : string)
| Buffer (data : bytes)
| ZipBuffer (entries : archive).

Inductive response : Type :=
| Redirect (endpoint : string)
| SendFile (body : payload) (download_name : string).

(** ** The PDF and imaging libraries

    PyPDF2 and Pillow are outside the repository; the routes only rely on
    the interface below. *)
Class Backend : Type := {
  page : Type;
  (** [PdfReader(io.BytesIO(b))] followed by reading its pages. *)
  PdfReader : bytes -> exn + list page;
  (** [PdfMerger.write] of the pages appended so far. *)
  pdf_write : list page -> bytes;
  (** [Image.open], [convert("RGB")] and [save(format="PDF")]. *)
  image_save_pdf : bytes -> exn + bytes
}.

(** ** State and exception monad *)

Definition M (A : Type) : Type := state -> (exn + A) * state.

Definition ret {A} (a : A) : M A := fun s => (inr a, s).

Definition bind {A B} (m : M A) (k : A -> M B) : M B :=
  fun s => match m s with
           | (inr a, s') => k a s'
           | (inl e, s') => (inl e, s')
           end.

Definition raise {A} (e : exn) : M A := fun s => (inl e, s).

(** [try: m  except Exception as e: h e] *)
Definition try_except {A} (m : M A) (h : exn -> M A) : M A :=
  fun s => match m s with
           | (inr a, s') => (inr a, s')
           | (inl e, s') => h e s'
           end.

Definition lift {A} (r : exn + A) : M A := fun s => (r, s).

Declare Scope m_scope.
Delimit Scope m_scope with m.
Notation "x <- m ;; k" := (bind m (fun x => k))
  (at level 100, m at next level, right associativity) : m_scope.
Notation "m ;;; k" := (bind m (fun _ => k))
  (at level 100, right associativity) : m_scope.
Local Open Scope m_scope.

(** [abort(404, description)] *)
Definition abort404 {A} (description : string) : M A :=
  raise (NotFound description).

(** [Product.query.get(pid)] *)
Definition query_get (pid : Z) : M (option Product) :=
  fun s => (inr (products s !! pid), s).

(** [Product.query.get_or_404(pid)] *)
Definition get_or_404 (pid : Z) : M Product :=
  o <- query_get pid ;;
  match o with
  | Some p => ret p
  | None => abort404 "The requested URL was not found on the server."
  end.

(** [path.exists()] *)
Definition path_exists (path : string) : M bool :=
  fun s => (inr (bool_decide (is_Some (files s !! path))), s).

(** [path.read_bytes()] *)
Definition read_bytes (path : string) : M bytes :=
  fun s => match files s !! path with
           | Some b => (inr b, s)
           | None => (inl (FileNotFoundError
                             ("No such file or directory: " +:+ path)), s)
           end.

(** [flash(message, category)] *)
Definition flash (message category : string) : M unit :=
  fun s => (inr tt, mkState (products s) (files s)
                            (flashes s ++ [(category, message)]) (zf s)).

(** [zipfile.ZipFile(zip_buffer, mode="w", ...)]: a fresh, empty archive. *)
Definition zip_open : M unit :=
  fun s => (inr tt, mkState (products s) (files s) (flashes s) []).

(** [zf.writestr(arcname, data)] *)
Definition zf_writestr (arcname : string) (data : bytes) : M unit :=
  fun s => (inr tt, mkState (products s) (files s) (flashes s)
                            (zf s ++ [(arcname, data)])).

(** [zf.write(path, arcname=arcname)] *)
Definition zf_write (path arcname : string) : M unit :=
  data <- read_bytes path ;; zf_writestr arcname data.

(** [zip_buffer] once the [with] block has closed the archive. *)
Definition zip_buffer : M archive := fun s => (inr (zf s), s).

(** ** Helpers of the application *)

Section Routes.

Context {B : Backend}.

(** [_image_to_pdf_bytes(image_path)] *)
Definition _image_to_pdf_bytes (image_path : string) : M bytes :=
  im <- read_bytes image_path ;;
  lift (image_save_pdf im).

(** [_cert_as_pdf_stream(product)] *)
Definition _cert_as_pdf_stream (product : Product) : M bytes :=
  match cert_path product with
  | None => raise (FileNotFoundError "Certification file missing.")
  | Some cert =>
      present <- path_exists cert ;;
      if negb present
      then raise (FileNotFoundError "Certification file missing.")
      else if String.eqb (Py.lower (Py.suffix cert)) ".pdf"
           then read_bytes cert
           else _image_to_pdf_bytes cert
  end.

(** The [for s in streams: merger.append(PdfReader(s))] loop; [merger]
    holds the pages appended so far. *)
Fixpoint merger_append_all (merger : list page) (streams : list bytes)
  : exn + list page :=
  match streams with
  | [] => inr merger
  | s :: rest =>
      match PdfReader s with
      | inl e => inl e
      | inr pages => merger_append_all (merger ++ pages) rest
      end
  end.

(** [_merge_pdfs_stream(streams)].  The [finally: merger.close()] only
    releases the merger. *)
Definition _merge_pdfs_stream (streams : list bytes) : exn + bytes :=
  match merger_append_all [] streams with
  | inl e => inl e
  | inr merger => inr (pdf_write merger)
  end.

(** ** Single downloads *)

(** [download_combined(pid)].  The [finally] block closes the input
    streams and has no other effect. *)
Definition download_combined (pid : Z) : M response :=
  p <- get_or_404 pid ;;
  match cutsheet_path p with
  | None => abort404 "Cutsheet is required to create combined file."
  | Some cspath =>
      cs_present <- path_exists cspath ;;
      if negb cs_present
      then abort404 "Cutsheet is required to create combined file."
      else
        match cert_path p with
        | None =>
            abort404 "Certification file is required to create combined file."
        | Some certpath =>
            cert_present <- path_exists certpath ;;
            if negb cert_present
            then abort404
                   "Certification file is required to create combined file."
            else
              cs <- read_bytes cspath ;;
              cert <- _cert_as_pdf_stream p ;;
              combined <- lift (_merge_pdfs_stream [cs; cert]) ;;
              ret (SendFile (Buffer combined)
                            (label_of p +:+ "-combined.pdf"))
        end
  end.

(** ** Bulk download *)

(** [(p.model_number or p.sku or p.name).strip().replace("/", "-")] *)
Definition bulk_label (p : Product) : string :=
  Py.replace_char "/" "-" (Py.strip (label_of p)).

(** [f"{action}"] for the optional form field. *)
Definition fmt_action (action : option string) : string :=
  match action with
  | Some a => a
  | None => "None"
  end.

Definition action_is (action : option string) (a : string) : bool :=
  match action with
  | Some x => String.eqb x a
  | None => false
  end.

(** The body of the [try] block for one product. *)
Definition bulk_try (action : option string) (p : Product) (label : string)
  : M unit :=
  if action_is action "cutsheet" then
    match cutsheet_path p with
    | None => ret tt
    | Some path =>
        present <- path_exists path ;;
        if present then zf_write path (label +:+ "/cutsheet.pdf")
        else ret tt
    end
  else if action_is action "cert" then
    match cert_path p with
    | None => ret tt
    | Some path =>
        present <- path_exists path ;;
        if present
        then zf_write path (label +:+ "/cert" +:+ Py.lower (Py.suffix path))
        else ret tt
    end
  else if action_is action "combined" then
    match cutsheet_path p with
    | None => ret tt
    | Some cspath =>
        cs_present <- path_exists cspath ;;
        if negb cs_present then ret tt
        else
          match cert_path p with
          | None => ret tt
          | Some certpath =>
              cert_present <- path_exists certpath ;;
              if negb cert_present then ret tt
              else
                cs <- read_bytes cspath ;;
                cert <- _cert_as_pdf_stream p ;;
                combined <- lift (_merge_pdfs_stream [cs; cert]) ;;
                zf_writestr (label +:+ "/" +:+ label +:+ "-combined.pdf")
                            combined
          end
    end
  else ret tt.

(** The entry written by the [except Exception as e] handler. *)
Definition error_marker (label : string) (e : exn) : string * bytes :=
  (label +:+ "/ERROR.txt", encode ("Failed to process: " +:+ str_exn e)).

Definition bulk_except (label : string) (e : exn) : M unit :=
  zf_writestr (fst (error_marker label e)) (snd (error_marker label e)).

(** What [int(sid)] raises on a malformed identifier. *)
Definition invalid_literal (sid : string) : exn :=
  ValueError ("invalid literal for int() with base 10: '" +:+ sid +:+ "'").

Definition int_or_raise (sid : string) : M Z :=
  match Py.int sid with
  | Some n => ret n
  | None => raise (invalid_literal sid)
  end.

(** One iteration of [for sid in ids]. *)
Definition bulk_step (action : option string) (sid : string) : M unit :=
  pid <- int_or_raise sid ;;
  o <- query_get pid ;;
  match o with
  | None => ret tt
  | Some p =>
      let label := bulk_label p in
      try_except (bulk_try action p label) (bulk_except label)
  end.

Fixpoint bulk_loop (action : option string) (ids : list string) : M unit :=
  match ids with
  | [] => ret tt
  | sid :: rest => bulk_step action sid ;;; bulk_loop action rest
  end.

(** [bulk_download()], on the two form fields it reads. *)
Definition bulk_download (action : option string) (ids : list string)
  : M response :=
  match ids with
  | [] =>
      flash "No products selected" "error" ;;;
      ret (Redirect "index")
  | _ :: _ =>
      zip_open ;;;
      bulk_loop action ids ;;;
      entries <- zip_buffer ;;
      ret (SendFile (ZipBuffer entries)
                    ("products-" +:+ fmt_action action +:+ ".zip"))
  end.

End Routes.

(** ** Derived notions used in the statements *)

(** The state with its archive replaced by [z]. *)
Definition with_zf (z : archive) (s : state) : state :=
  mkState (products s) (files s) (flashes s) z.

(** A file reference resolves when it is set and its file is stored. *)
Definition resolves (s : state) (ref : option string) : bool :=
  match ref with
  | Some path => bool_decide (is_Some (files s !! path))
  | None => false
  end.

(** What [m] returns, and what it writes, when run on an empty archive. *)
Definition outcome {A} (m : M A) (s : state) : exn + A :=
  fst (m (with_zf [] s)).

Definition written {A} (m : M A) (s : state) : archive :=
  zf (snd (m (with_zf [] s))).

(** [m] touches the archive only by appending entries, what it appends and
    what it returns do not depend on the entries already there, and the
    rest of the state is left as it was. *)
Definition appends {A} (m : M A) : Prop :=
  forall s z, m (with_zf z s) = (outcome m s, with_zf (z ++ written m s) s).

(** [m] leaves the product table and the stored files as they were. *)
Definition readonly {A} (m : M A) : Prop :=
  forall s, products (snd (m s)) = products s /\ files (snd (m s)) = files s.




(** The stored files the action asks for are not all there. *)
Definition requested_missing (action : option string) (s : state)
    (p : Product) : bool :=
  if action_is action "cutsheet" then negb (resolves s (cutsheet_path p))
  else if action_is action "cert" then negb (resolves s (cert_path p))
  else if action_is action "combined"
       then negb (resolves s (cutsheet_path p) && resolves s (cert_path p))
       else false.

(** ** A small instance to run the routes on *)

Module Demo.

Definition magic : bytes := encode "%PDF".

(** A toy document format: the magic number, then one byte per page. *)
Definition reader (b : bytes) : exn + list Byte.byte :=
  match b with
  | x1 :: x2 :: x3 :: x4 :: pages =>
      if Byte.eqb x1 Byte.x25 && Byte.eqb x2 Byte.x50
         && Byte.eqb x3 Byte.x44 && Byte.eqb x4 Byte.x46
      then inr pages
      else inl (LibraryError "PdfReadError" "EOF marker not found")
  | _ => inl (LibraryError "PdfReadError" "Cannot read an empty file")
  end.

Definition image_save (b : bytes) : exn + bytes :=
  match b with
  | [] => inl (LibraryError "UnidentifiedImageError"
                            "cannot identify image file")
  | x :: _ => inr (magic ++ [x])
  end.

#[export] Instance backend : Backend := {|
  page := Byte.byte;
  PdfReader := reader;
  pdf_write := fun pages => magic ++ pages;
  image_save_pdf := image_save
|}.

Definition mk (i : Z) (n : string) (model cs cert : option string)
  : Product :=
  mkProduct i n None model None cs cert None.

(** Both files. *)
Definition pA : Product :=
  mk 1 "Widget A" (Some "W/A ") (Some "cs-a.pdf") (Some "cert-a.png").
(** Cut sheet only. *)
Definition pB : Product := mk 2 "Only Cutsheet" None (Some "cs-b.pdf") None.
(** No file. *)
Definition pC : Product := mk 3 "Bare" None None None.
(** Both files, with a certification image that does not decode. *)
Definition pD : Product :=
  mk 4 "Broken" (Some "D-4") (Some "cs-d.pdf") (Some "cert-d.jpg").
(** A certification that is already a document. *)
Definition pE : Product :=
  mk 5 "Pdf Cert" None (Some "cs-e.pdf") (Some "cert-e.PDF").

Definition table : gmap Z Product :=
  <[1 := pA]> (<[2 := pB]> (<[3 := pC]> (<[4 := pD]> (<[5 := pE]> ∅)))).

Definition disk : gmap string bytes :=
  <["uploads/cutsheets/cs-a.pdf" := encode "%PDFab"]>
  (<["uploads/certifications/cert-a.png" := encode "img"]>
  (<["uploads/cutsheets/cs-b.pdf" := encode "%PDFc"]>
  (<["uploads/cutsheets/cs-d.pdf" := encode "%PDFd"]>
  (<["uploads/certifications/cert-d.jpg" := []]>
  (<["uploads/cutsheets/cs-e.pdf" := encode "%PDFe"]>
  (<["uploads/certifications/cert-e.PDF" := encode "%PDFxyz"]> ∅)))))).

Definition s0 : state := mkState table disk [] [].


End Demo.

(** * Record management: uploads, create, update, delete *)

(** ** [pathlib.PurePosixPath] on names as a client sends them *)

Module Posix.

(** [s.split(sep)] *)
Fixpoint split_on (sep : ascii) (l : list ascii) : list (list ascii) :=
  match l with
  | [] => [[]]
  | c :: r =>
      if Ascii.eqb c sep then [] :: split_on sep r
      else match split_on sep r with
           | cur :: rest => (c :: cur) :: rest
           | [] => [[c]]
           end
  end.

(** Empty components and ["."] components are dropped when a path is
    parsed. *)
Definition kept (part : list ascii) : bool :=
  match part with
  | [] => false
  | [c] => negb (Ascii.eqb c ".")
  | _ => true
  end.

(** [PurePosixPath(path).name], as characters. *)
Definition name_chars (path : string) : list ascii :=
  default [] (last (filter (fun part => kept part = true)
                           (split_on "/" (Py.chars path)))).

(** [suffix] of a name: with [i = name.rfind('.')], [name[i:]] when
    [0 < i < len(name) - 1], and [''] otherwise. *)
Definition suffix_chars (n : list ascii) : list ascii :=
  match Py.split_first "." (rev n) with
  | Some (ext_rev, stem_rev) =>
      match ext_rev, stem_rev with
      | _ :: _, _ :: _ => "."%char :: rev ext_rev
      | _, _ => []
      end
  | None => []
  end.

(** [stem] of a name: [name[:i]] under the same test, the name otherwise. *)
Definition stem_chars (n : list ascii) : list ascii :=
  match Py.split_first "." (rev n) with
  | Some (ext_rev, stem_rev) =>
      match ext_rev, stem_rev with
      | _ :: _, _ :: _ => rev stem_rev
      | _, _ => n
      end
  | None => n
  end.

Definition suffix (path : string) : string :=
  Py.str_of (suffix_chars (name_chars path)).

Definition stem (path : string) : string :=
  Py.str_of (stem_chars (name_chars path)).

End Posix.

Definition ALLOWED_CUTSHEET_EXT : list string := [".pdf"].
Definition ALLOWED_CERT_EXT : list string := [".pdf"; ".png"; ".jpg"; ".jpeg"].
Definition ALLOWED_IMAGE_EXT : list string := [".png"; ".jpg"; ".jpeg"; ".webp"].

(** [_ext_ok(filename, allowed)] *)
Definition _ext_ok (filename : string) (allowed : list string) : bool :=
  existsb (String.eqb (Py.lower (Posix.suffix filename))) allowed.

(** A werkzeug [FileStorage]: the name the client sent and the body. *)
Record FileStorage : Type := mkFileStorage {
  filename : string;
  stream : bytes
}.

(** [file_storage and file_storage.filename]: a [FileStorage] is truthy
    when its file name is. *)
Definition uploaded (file_storage : option FileStorage) : bool :=
  match file_storage with
  | Some f => negb (String.eqb (filename f) "")
  | None => false
  end.

(** The body shared by [_validate_cutsheet], [_validate_cert] and
    [_validate_image]. *)
Definition validate_upload (none_msg ext_msg : string) (allowed : list string)
    (file_storage : option FileStorage) : exn + string :=
  match file_storage with
  | Some f =>
      if negb (uploaded file_storage) then inl (ValueError none_msg)
      else if negb (_ext_ok (filename f) allowed) then inl (ValueError ext_msg)
      else inr (filename f)
  | None => inl (ValueError none_msg)
  end.

Definition _validate_cutsheet : option FileStorage -> exn + string :=
  validate_upload "No cutsheet file provided." "Cutsheet must be a PDF."
                  ALLOWED_CUTSHEET_EXT.

Definition _validate_cert : option FileStorage -> exn + string :=
  validate_upload "No certification file provided."
                  "Certification must be a PDF or image (png/jpg/jpeg)."
                  ALLOWED_CERT_EXT.

Definition _validate_image : option FileStorage -> exn + string :=
  validate_upload "No image file provided."
                  "Image must be png/jpg/jpeg/webp."
                  ALLOWED_IMAGE_EXT.

(** One lower-case hexadecimal digit. *)
Definition hex_digit (d : Z) : ascii :=
  ascii_of_nat (Z.to_nat (if d <? 10 then 48 + d else 87 + d)).

(** The [k] low hexadecimal digits of [n], most significant first. *)
Fixpoint hex_digits (k : nat) (n : Z) : list ascii :=
  match k with
  | O => []
  | S k' => hex_digits k' (n / 16) ++ [hex_digit (n mod 16)]
  end.

(** [UUID(int=n).hex], that is ['%032x' % n]. *)
Definition uuid_hex (n : Z) : string := Py.str_of (hex_digits 32 n).

(** What the routes take from the host: werkzeug's [secure_filename], and
    the paths on which [unlink] raises although the file is there. *)
Class Host : Type := {
  secure_filename : string -> string;
  unlink_fails : string -> bool
}.

(** [s or None] *)
Definition or_none (s : string) : option string :=
  if String.eqb s "" then None else Some s.

(** [s or d] *)
Definition or_else (s d : string) : string :=
  if String.eqb s "" then d else s.

(** [(value or "").strip()] for a form field. *)
Definition field (value : option string) : string := Py.strip (py_or value "").

Record Form : Type := mkForm {
  form_name : option string;
  form_model_number : option string;
  form_sku : option string;
  form_notes : option string
}.

Record Uploads : Type := mkUploads {
  up_cutsheet : option FileStorage;
  up_cert : option FileStorage;
  up_image : option FileStorage
}.

(** [file_storage.save(path)] *)
Definition save_file (path : string) (data : bytes) : M unit :=
  fun s => (inr tt, mkState (products s) (<[path := data]> (files s))
                            (flashes s) (zf s)).

(** [db.session.add(p); db.session.commit()], and the commit of a row
    changed in the session, under primary key [pk]. *)
Definition db_commit (pk : Z) (p : Product) : M unit :=
  fun s => (inr tt, mkState (<[pk := p]> (products s)) (files s)
                            (flashes s) (zf s)).

(** [db.session.delete(p); db.session.commit()] *)
Definition db_delete (pk : Z) : M unit :=
  fun s => (inr tt, mkState (delete pk (products s)) (files s)
                            (flashes s) (zf s)).

(** The [UPDATE product SET model_number = COALESCE(model_number, sku)
    WHERE (model_number IS NULL OR model_number = '') AND sku IS NOT NULL]
    of [_ensure_columns_and_copy_sku_to_model_number], on one row. *)
Definition copy_sku_row (p : Product) : Product :=
  match sku p with
  | Some k =>
      match model_number p with
      | None =>
          mkProduct (id p) (name p) (sku p) (Some k) (notes p)
                    (cutsheet_filename p) (cert_filename p) (image_filename p)
      | Some m =>
          if String.eqb m ""
          then mkProduct (id p) (name p) (sku p) (Some m) (notes p)
                         (cutsheet_filename p) (cert_filename p)
                         (image_filename p)
          else p
      end
  | None => p
  end.

(** The statement on the whole table. *)
Definition copy_sku_to_model_number (table : gmap Z Product)
  : gmap Z Product :=
  copy_sku_row <$> table.

Section Management.

Context {H : Host}.

(** [path.unlink()] *)
Definition unlink (path : string) : M unit :=
  fun s =>
    match files s !! path with
    | Some _ =>
        if unlink_fails path
        then (inl (LibraryError "PermissionError" "Permission denied"), s)
        else (inr tt, mkState (products s) (delete path (files s))
                              (flashes s) (zf s))
    | None =>
        (inl (FileNotFoundError ("No such file or directory: " +:+ path)), s)
    end.

(** [if path and path.exists(): try: path.unlink() except Exception: pass] *)
Definition unlink_if_present (path : option string) : M unit :=
  match path with
  | None => ret tt
  | Some old =>
      present <- path_exists old ;;
      if present then try_except (unlink old) (fun _ => ret tt) else ret tt
  end.

(** [_safe_unique_name(original_filename)], with the integer of the
    [uuid4()] it draws. *)
Definition _safe_unique_name (original_filename : string) (uuid : Z)
  : string :=
  let base := or_else (secure_filename (Posix.stem original_filename)) "file" in
  let ext := Py.lower (Posix.suffix original_filename) in
  base +:+ "-" +:+ uuid_hex uuid +:+ ext.

(** One upload block of [product_create]:
    [if f and f.filename: validate(f); name = _safe_unique_name(f.filename);
    f.save(dir / name)].  [drawn] counts the [uuid4()] calls made so far in
    the request; the block returns the stored name and the new count. *)
Definition create_upload (validate : option FileStorage -> exn + string)
    (dir : string) (file_storage : option FileStorage)
    (uuids : nat -> Z) (drawn : nat) : M (option string * nat) :=
  match file_storage with
  | Some f =>
      if uploaded file_storage then
        lift (validate file_storage) ;;;
        let stored := _safe_unique_name (filename f) (uuids drawn) in
        save_file (path_join dir stored) (stream f) ;;;
        ret (Some stored, S drawn)
      else ret (None, drawn)
  | None => ret (None, drawn)
  end.

(** [product_create()], on the form fields and files it reads, the
    [uuid4()] draws of the request and the primary key the database gives
    the new row. *)
Definition product_create (form : Form) (files_ : Uploads)
    (uuids : nat -> Z) (pk : Z) : M response :=
  let name_ := field (form_name form) in
  let model :=
    Py.strip (py_or (form_model_number form) (py_or (form_sku form) "")) in
  let notes_ := field (form_notes form) in
  if String.eqb name_ "" then
    flash "Name is required" "error" ;;;
    ret (Redirect "product_new")
  else
    cs <- create_upload _validate_cutsheet CUTSHEETS_DIR
                        (up_cutsheet files_) uuids 0 ;;
    cert <- create_upload _validate_cert CERTS_DIR
                          (up_cert files_) uuids (snd cs) ;;
    img <- create_upload _validate_image IMAGES_DIR
                         (up_image files_) uuids (snd cert) ;;
    db_commit pk (mkProduct pk name_ (or_none model) (or_none model)
                            (or_none notes_) (fst cs) (fst cert) (fst img)) ;;;
    flash "Product created" "success" ;;;
    ret (Redirect "index").

(** One replacement block of [product_update]: the new file is validated,
    the file the row pointed to is unlinked if it is there, the new file is
    saved.  Returns the file name the row holds afterwards. *)
Definition update_upload (validate : option FileStorage -> exn + string)
    (dir : string) (current : option string)
    (file_storage : option FileStorage)
    (uuids : nat -> Z) (drawn : nat) : M (option string * nat) :=
  match file_storage with
  | Some f =>
      if uploaded file_storage then
        lift (validate file_storage) ;;;
        (if Py.truthy current
         then unlink_if_present (path_join dir <$> current)
         else ret tt) ;;;
        let newname := _safe_unique_name (filename f) (uuids drawn) in
        save_file (path_join dir newname) (stream f) ;;;
        ret (Some newname, S drawn)
      else ret (current, drawn)
  | None => ret (current, drawn)
  end.

(** [product_update(pid)].  The row is changed in the session and written
    by the final commit only. *)
Definition product_update (pid : Z) (form : Form) (files_ : Uploads)
    (uuids : nat -> Z) : M response :=
  p <- get_or_404 pid ;;
  let name_ := or_else (field (form_name form)) (name p) in
  let new_model :=
    or_none (Py.strip (py_or (form_model_number form)
                             (py_or (form_sku form) ""))) in
  let notes_ := or_none (field (form_notes form)) in
  cs <- update_upload _validate_cutsheet CUTSHEETS_DIR (cutsheet_filename p)
                      (up_cutsheet files_) uuids 0 ;;
  cert <- update_upload _validate_cert CERTS_DIR (cert_filename p)
                        (up_cert files_) uuids (snd cs) ;;
  img <- update_upload _validate_image IMAGES_DIR (image_filename p)
                       (up_image files_) uuids (snd cert) ;;
  db_commit pid (mkProduct (id p) name_ new_model new_model notes_
                           (fst cs) (fst cert) (fst img)) ;;;
  flash "Product updated" "success" ;;;
  ret (Redirect "index").

(** [product_delete(pid)] *)
Definition product_delete (pid : Z) : M response :=
  p <- get_or_404 pid ;;
  unlink_if_present (cutsheet_path p) ;;;
  unlink_if_present (cert_path p) ;;;
  unlink_if_present (image_path p) ;;;
  db_delete pid ;;;
  flash "Product deleted" "success" ;;;
  ret (Redirect "index").

End Management.

(** ** Single downloads of one file *)

(** [download_cutsheet(pid)] *)
Definition download_cutsheet (pid : Z) : M response :=
  p <- get_or_404 pid ;;
  match cutsheet_path p with
  | None => abort404 "Cutsheet not found"
  | Some path =>
      present <- path_exists path ;;
      if negb present then abort404 "Cutsheet not found"
      else ret (SendFile (FileAt path) (label_of p +:+ "-cutsheet.pdf"))
  end.


(** ** Derived notions for the management routes *)

(** The paths a row refers to. *)
Definition record_paths (p : Product) : list string :=
  omap (fun ref => ref) [cutsheet_path p; cert_path p; image_path p].

(** From [s] to [s'] no stored file outside [paths] has disappeared and no
    row other than [pk] has changed. *)
Definition kept_outside (paths : list string) (pk : Z) (s s' : state) : Prop :=
  (forall path, path ∉ paths ->
                is_Some (files s !! path) -> is_Some (files s' !! path))
  /\ (forall k, k <> pk -> products s' !! k = products s !! k).

(** An upload field that is empty, or holds a file its check accepts. *)
Definition acceptable (validate : option FileStorage -> exn + string)
    (file_storage : option FileStorage) : Prop :=
  uploaded file_storage = false
  \/ exists accepted, validate file_storage = inr accepted.

(** The upload field [file_storage] ended up stored under the reference
    [ref]: an upload is behind [ref] with its bytes, and no upload leaves no
    reference. *)
Definition stored_as (s : state) (file_storage : option FileStorage)
    (ref : option string) : Prop :=
  match file_storage with
  | Some f =>
      if uploaded file_storage
      then exists path, ref = Some path /\ files s !! path = Some (stream f)
      else ref = None
  | None => ref = None
  end.

(** A host for the samples: names pass through [secure_filename] as they
    are, and every [unlink] succeeds. *)
Module DemoHost.

#[export] Instance host : Host := {|
  secure_filename := fun s => s;
  unlink_fails := fun _ => false
|}.

Definition draws (n : nat) : Z := 255 + Z.of_nat n.

Definition sheet : FileStorage := mkFileStorage "Sheet.PDF" (encode "%PDFq").
Definition shot : FileStorage := mkFileStorage "shot.png" (encode "img").
Definition text : FileStorage := mkFileStorage "notes.txt" (encode "hello").

Definition form : Form :=
  mkForm (Some " Lamp ") (Some "L-1") None None.

Definition blank_form : Form := mkForm (Some "  ") None None None.

(** A row written before [model_number] existed. *)
Definition legacy_row : Product :=
  mkProduct 7 "Old lamp" (Some "S-7") None None None None None.

Definition legacy : gmap Z Product := <[7 := legacy_row]> ∅.

Definition refused : exn :=
  ValueError "Certification must be a PDF or image (png/jpg/jpeg).".

End DemoHost.

(** * Properties *)

(** ** The archive as a frame *)

Lemma with_zf_idem z z' s : with_zf z (with_zf z' s) = with_zf z s.
Proof. reflexivity. Qed.

Lemma with_zf_self s : with_zf (zf s) s = s.
Proof. now destruct s. Qed.

Lemma appends_run {A} (m : M A) s :
  appends m -> m s = (outcome m s, with_zf (zf s ++ written m s) s).
Proof. intros Hm. rewrite <- (with_zf_self s) at 1. apply Hm. Qed.

Create HintDb frame.

Lemma appends_ret {A} (a : A) : appends (ret a).
Proof. intros s z. unfold ret, written. simpl. now rewrite app_nil_r. Qed.

Lemma appends_raise {A} e : appends (@raise A e).
Proof. intros s z. unfold raise, written. simpl. now rewrite app_nil_r. Qed.

Lemma appends_lift {A} (r : exn + A) : appends (lift r).
Proof. intros s z. unfold lift, written. simpl. now rewrite app_nil_r. Qed.

Lemma appends_query_get pid : appends (query_get pid).
Proof. intros s z. unfold query_get, written. simpl. now rewrite app_nil_r. Qed.

Lemma appends_path_exists path : appends (path_exists path).
Proof.
  intros s z. unfold path_exists, written. simpl. now rewrite app_nil_r.
Qed.

Lemma appends_read_bytes path : appends (read_bytes path).
Proof.
  intros s z. unfold read_bytes, written, outcome. simpl.
  destruct (files s !! path); simpl; now rewrite app_nil_r.
Qed.

Lemma appends_zf_writestr arcname data : appends (zf_writestr arcname data).
Proof. intros s z. reflexivity. Qed.

Lemma appends_bind {A B} (m : M A) (k : A -> M B) :
  appends m -> (forall a, appends (k a)) -> appends (bind m k).
Proof.
  intros Hm Hk s z. unfold outcome, written, bind.
  rewrite (Hm s z), (Hm s []). simpl.
  destruct (outcome m s) as [e | a]; simpl; [reflexivity |].
  rewrite (Hk a s (z ++ written m s)), (Hk a s (written m s)). simpl.
  now rewrite app_assoc.
Qed.

Lemma appends_try_except {A} (m : M A) (h : exn -> M A) :
  appends m -> (forall e, appends (h e)) -> appends (try_except m h).
Proof.
  intros Hm Hh s z. unfold outcome, written, try_except.
  rewrite (Hm s z), (Hm s []). simpl.
  destruct (outcome m s) as [e | a]; simpl; [| reflexivity].
  rewrite (Hh e s (z ++ written m s)), (Hh e s (written m s)). simpl.
  now rewrite app_assoc.
Qed.

#[local] Hint Resolve appends_ret appends_raise appends_lift appends_query_get
  appends_path_exists appends_read_bytes appends_zf_writestr : frame.

(** Every step of a computation that is built from the primitives above. *)
Ltac frame_steps :=
  repeat first
    [ apply appends_bind; [| intros ?]
    | apply appends_try_except; [| intros ?]
    | solve [auto with frame]
    | match goal with
      | |- appends (match ?x with _ => _ end) => destruct x
      | |- appends (if ?b then _ else _) => destruct b
      end ].

Lemma appends_zf_write path arcname : appends (zf_write path arcname).
Proof. unfold zf_write. frame_steps. Qed.

#[local] Hint Resolve appends_zf_write : frame.

(** When a sequence is run on an archive, what its second part sees of the
    first is only the entries it leaves behind. *)
Lemma outcome_frame {A} (m : M A) s z :
  appends m -> outcome m (with_zf z s) = outcome m s.
Proof. intros Hm. unfold outcome. now rewrite !with_zf_idem. Qed.

Lemma written_frame {A} (m : M A) s z :
  appends m -> written m (with_zf z s) = written m s.
Proof. intros Hm. unfold written. now rewrite !with_zf_idem. Qed.



(** ** Reading only *)

Lemma readonly_bind {A B} (m : M A) (k : A -> M B) :
  readonly m -> (forall a, readonly (k a)) -> readonly (bind m k).
Proof.
  intros Hm Hk s. unfold bind. specialize (Hm s).
  destruct (m s) as [[e | a] s']; simpl in *; [assumption |].
  destruct Hm as [Hp0 Hf0], (Hk a s') as [Hp Hf]. split; congruence.
Qed.

Lemma readonly_try_except {A} (m : M A) (h : exn -> M A) :
  readonly m -> (forall e, readonly (h e)) -> readonly (try_except m h).
Proof.
  intros Hm Hh s. unfold try_except. specialize (Hm s).
  destruct (m s) as [[e | a] s']; simpl in *; [| assumption].
  destruct Hm as [Hp0 Hf0], (Hh e s') as [Hp Hf]. split; congruence.
Qed.

Lemma readonly_read_bytes path : readonly (read_bytes path).
Proof. intros s. unfold read_bytes. now destruct (files s !! path). Qed.

Lemma readonly_plain {A} (m : M A) :
  (forall s, products (snd (m s)) = products s) ->
  (forall s, files (snd (m s)) = files s) -> readonly m.
Proof. intros Hp Hf s. split; [apply Hp | apply Hf]. Qed.

Ltac readonly_steps :=
  repeat first
    [ apply readonly_bind; [| intros ?]
    | apply readonly_try_except; [| intros ?]
    | apply readonly_read_bytes
    | solve [apply readonly_plain; reflexivity]
    | solve [auto]
    | match goal with
      | |- readonly (match ?x with _ => _ end) => destruct x
      | |- readonly (if ?b then _ else _) => destruct b
      end ].

(** ** Strings *)

Lemma append_cancel (a x y : string) : a +:+ x = a +:+ y -> x = y.
Proof.
  induction a as [| c a IH]; simpl; [trivial |].
  intros H. injection H as H. now apply IH.
Qed.

Lemma length_append (a b : string) :
  String.length (a +:+ b) = (String.length a + String.length b)%nat.
Proof. induction a as [| c a IH]; simpl; [reflexivity | now rewrite IH]. Qed.

Section RouteFacts.

Context {B : Backend}.

(** *** Concatenation *)

Lemma merger_append_all_parsed streams :
  forall pss merger,
    Forall2 (fun st ps => PdfReader st = inr ps) streams pss ->
    merger_append_all merger streams = inr (merger ++ concat pss).
Proof.
  induction streams as [| st streams IH]; intros pss merger Hall;
    inversion Hall as [| ? ps ? pss' Hst Hrest]; subst; simpl.
  - now rewrite app_nil_r.
  - rewrite Hst, (IH pss' (merger ++ ps) Hrest). now rewrite app_assoc.
Qed.

Lemma merge_parsed streams pss :
  Forall2 (fun st ps => PdfReader st = inr ps) streams pss ->
  _merge_pdfs_stream streams = inr (pdf_write (concat pss)).
Proof.
  intros Hall. unfold _merge_pdfs_stream.
  now rewrite (merger_append_all_parsed streams pss [] Hall).
Qed.

(** *** Frames of the routes *)

Lemma appends_image_to_pdf path : appends (_image_to_pdf_bytes path).
Proof. unfold _image_to_pdf_bytes. frame_steps. Qed.

Lemma appends_cert_as_pdf p : appends (_cert_as_pdf_stream p).
Proof.
  unfold _cert_as_pdf_stream. frame_steps.
Qed.

Lemma appends_bulk_try action p label : appends (bulk_try action p label).
Proof.
  unfold bulk_try. pose proof (appends_cert_as_pdf p). frame_steps.
Qed.

Lemma appends_bulk_except label e : appends (bulk_except label e).
Proof. unfold bulk_except. frame_steps. Qed.




Lemma readonly_cert_as_pdf p : readonly (_cert_as_pdf_stream p).
Proof. unfold _cert_as_pdf_stream, _image_to_pdf_bytes. readonly_steps. Qed.

Lemma readonly_bulk_step action sid : readonly (bulk_step action sid).
Proof.
  unfold bulk_step, bulk_try, bulk_except, int_or_raise, zf_write.
  pose proof readonly_cert_as_pdf. readonly_steps.
Qed.

Lemma readonly_bulk_loop action ids : readonly (bulk_loop action ids).
Proof.
  induction ids as [| sid rest IH]; simpl; [now apply readonly_plain |].
  apply readonly_bind; [apply readonly_bulk_step | intros _; exact IH].
Qed.

End RouteFacts.

Lemma outcome_try_except {A} (m : M A) (h : exn -> M A) s :
  appends m -> (forall e, appends (h e)) ->
  outcome (try_except m h) s =
    match outcome m s with
    | inl e => outcome (h e) s
    | inr a => inr a
    end.
Proof.
  intros Hm Hh. unfold outcome at 1. unfold try_except. rewrite Hm. simpl.
  destruct (outcome m s) as [e | a]; simpl; [| reflexivity].
  now rewrite (Hh e s (written m s)).
Qed.

Lemma written_try_except {A} (m : M A) (h : exn -> M A) s :
  appends m -> (forall e, appends (h e)) ->
  written (try_except m h) s =
    written m s ++ match outcome m s with
                   | inl e => written (h e) s
                   | inr _ => []
                   end.
Proof.
  intros Hm Hh. unfold written at 1. unfold try_except. rewrite Hm. simpl.
  destruct (outcome m s) as [e | a]; simpl; [| now rewrite app_nil_r].
  now rewrite (Hh e s (written m s)).
Qed.

(** Case analysis on every test a route makes, once its monadic steps are
    unfolded. *)
Ltac run_cases :=
  repeat (simplify_eq/=;
          match goal with
          | |- context [match ?x with _ => _ end] => destruct x eqn:?
          | H : context [match ?x with _ => _ end] |- _ => destruct x eqn:?
          end);
  simplify_eq/=; try congruence.

Section BulkFacts.

Context {B : Backend}.








Lemma bulk_step_resolved action sid pid p s :
  Py.int sid = Some pid -> products s !! pid = Some p ->
  bulk_step action sid s
  = try_except (bulk_try action p (bulk_label p))
               (bulk_except (bulk_label p)) s.
Proof.
  intros H Hp. unfold bulk_step, int_or_raise, bind, query_get, ret.
  now rewrite H, Hp.
Qed.





Lemma bulk_try_missing action p label s :
  requested_missing action s p = true ->
  bulk_try action p label s = (inr tt, s).
Proof.
  unfold requested_missing, bulk_try, resolves, bind, ret, path_exists.
  intros H. run_cases.
  all: repeat destruct (bool_decide _); simpl in *; congruence.
Qed.


Lemma marker_name_fresh label x :
  x = "/cutsheet.pdf" \/ (exists suf, x = "/cert" +:+ suf)
  \/ x = "/" +:+ label +:+ "-combined.pdf" ->
  label +:+ x <> label +:+ "/ERROR.txt".
Proof.
  intros Hx Heq. apply append_cancel in Heq.
  destruct Hx as [-> | [[suf ->] | ->]]; try discriminate.
  change ("/" +:+ label +:+ "-combined.pdf")
    with (String "/" (label +:+ "-combined.pdf")) in Heq.
  injection Heq as Heq. apply (f_equal String.length) in Heq.
  rewrite (length_append label) in Heq. simpl in Heq. lia.
Qed.

(** A [try] body that returns writes no entry under the marker's name. *)
Lemma bulk_try_no_marker action p label s entry :
  outcome (bulk_try action p label) s = inr tt ->
  In entry (written (bulk_try action p label) s) ->
  fst entry <> label +:+ "/ERROR.txt".
Proof.
  unfold outcome, written, bulk_try, zf_write, zf_writestr,
    _cert_as_pdf_stream, _image_to_pdf_bytes, bind, ret, raise, lift,
    path_exists, read_bytes.
  intros Hout Hin.
  run_cases; try tauto;
    destruct Hin as [<- | []]; apply marker_name_fresh; eauto.
Qed.


End BulkFacts.

(** * The claims *)

Section Claims.

Context {B : Backend}.

(** C1.  For a record whose cut sheet file and certification file both
    exist, [download_combined] hands [_merge_pdfs_stream] exactly two
    streams, the cut sheet's bytes first and the certification in document
    form second (read verbatim when its suffix is [.pdf], converted from
    an image otherwise), and returns its result; when both parse, the
    pages of the cut sheet precede the pages of the certification. *)
Theorem download_combined_order s pid p cspath certpath cs ce :
  products s !! pid = Some p ->
  cutsheet_path p = Some cspath -> files s !! cspath = Some cs ->
  cert_path p = Some certpath -> files s !! certpath = Some ce ->
  let cert :=
    if String.eqb (Py.lower (Py.suffix certpath)) ".pdf"
    then inr ce else image_save_pdf ce in
  let download_name := label_of p +:+ "-combined.pdf" in
  download_combined pid s
  = (match cert with
     | inl e => inl e
     | inr c =>
         match _merge_pdfs_stream [cs; c] with
         | inl e => inl e
         | inr doc => inr (SendFile (Buffer doc) download_name)
         end
     end, s)
  /\ forall c pages_cs pages_cert,
      cert = inr c ->
      PdfReader cs = inr pages_cs -> PdfReader c = inr pages_cert ->
      download_combined pid s
      = (inr (SendFile (Buffer (pdf_write (pages_cs ++ pages_cert)))
                       download_name), s).
Proof.
  intros Hp Hcs Hcsf Hce Hcef cert download_name.
  assert (download_combined pid s
          = (match cert with
             | inl e => inl e
             | inr c =>
                 match _merge_pdfs_stream [cs; c] with
                 | inl e => inl e
                 | inr doc => inr (SendFile (Buffer doc) download_name)
                 end
             end, s)) as Hrun.
  { subst cert download_name.
    unfold download_combined, get_or_404, query_get, bind, ret, lift,
      _cert_as_pdf_stream, _image_to_pdf_bytes, path_exists, read_bytes.
    repeat first
      [ rewrite Hp | rewrite Hcs | rewrite Hcsf | rewrite Hce | rewrite Hcef
      | rewrite bool_decide_true by (eexists; reflexivity)
      | progress simpl | progress unfold bind, raise ].
    destruct (String.eqb _ ".pdf"); simpl.
    - rewrite Hcef. destruct (_merge_pdfs_stream [cs; ce]); reflexivity.
    - rewrite Hcef. unfold lift.
      destruct (image_save_pdf ce) as [e | c]; [reflexivity |].
      destruct (_merge_pdfs_stream [cs; c]); reflexivity. }
  split; [exact Hrun |].
  intros c pages_cs pages_cert Hc Hpcs Hpcert.
  rewrite Hrun, Hc.
  rewrite (merge_parsed [cs; c] [pages_cs; pages_cert])
    by (repeat constructor; assumption).
  simpl. now rewrite app_nil_r.
Qed.

(** C3.  When the cut sheet reference or the certification reference of a
    record does not resolve to a stored file, [download_combined] aborts
    with 404 and returns no document: with the cut sheet message when the
    cut sheet is missing (whether or not the certification is there), and
    with the certification message when only the certification is
    missing.  Nothing else changes. *)
Theorem download_combined_missing s pid p :
  products s !! pid = Some p ->
  resolves s (cutsheet_path p) && resolves s (cert_path p) = false ->
  download_combined pid s
  = (inl (NotFound
            (if resolves s (cutsheet_path p)
             then "Certification file is required to create combined file."
             else "Cutsheet is required to create combined file.")), s).
Proof.
  intros Hp Hmiss.
  unfold download_combined, get_or_404, query_get, bind, ret, abort404,
    raise, path_exists.
  rewrite Hp. unfold resolves in *.
  destruct (cutsheet_path p) as [cspath |]; simpl; [| reflexivity].
  destruct (bool_decide (is_Some (files s !! cspath))); simpl in *;
    [| reflexivity].
  destruct (cert_path p) as [certpath |]; simpl; [| reflexivity].
  now rewrite Hmiss.
Qed.

(** C4 (amended).  [_merge_pdfs_stream] does not reject an empty list: it
    returns what the merger writes with no page appended.  On a single
    well-formed document it returns the merger's output for exactly that
    document's pages. *)
Theorem merge_empty_and_single d pages :
  PdfReader d = inr pages ->
  _merge_pdfs_stream [] = inr (pdf_write [])
  /\ _merge_pdfs_stream [d] = inr (pdf_write pages).
Proof.
  intros Hd. split; [reflexivity |].
  rewrite (merge_parsed [d] [pages]) by (repeat constructor; assumption).
  simpl. now rewrite app_nil_r.
Qed.

(** C8.  [bulk_download] and [download_combined] leave the product table
    and every stored file as they found them, on every input. *)
Theorem exports_read_only action ids pid :
  readonly (bulk_download action ids) /\ readonly (download_combined pid).
Proof.
  split.
  - unfold bulk_download. destruct ids as [| sid rest].
    + readonly_steps.
    + pose proof (readonly_bulk_loop action (sid :: rest)) as Hloop.
      revert Hloop. generalize (bulk_loop action (sid :: rest)).
      intros loop Hloop. unfold zip_open, zip_buffer. readonly_steps.
  - unfold download_combined, get_or_404, abort404, query_get.
    pose proof readonly_cert_as_pdf. readonly_steps.
Qed.


(** C5.  A record that resolved but whose requested stored file is absent
    (the cut sheet or the certification for the single kinds, either of
    the two for the combined kind) leaves the archive as it was, with
    neither an entry nor an error marker, and the loop goes on.  An entry
    named [label/ERROR.txt] is written for a record only when its [try]
    block raised. *)
Theorem bulk_missing_skipped action sid pid p s :
  Py.int sid = Some pid ->
  products s !! pid = Some p ->
  requested_missing action s p = true ->
  bulk_step action sid s = (inr tt, s)
  /\ forall sid' pid' q entry,
       Py.int sid' = Some pid' ->
       products s !! pid' = Some q ->
       In entry (written (bulk_step action sid') s) ->
       fst entry = bulk_label q +:+ "/ERROR.txt" ->
       exists e', outcome (bulk_try action q (bulk_label q)) s = inl e'.
Proof.
  intros Hsid Hp Hmiss. split.
  - rewrite (bulk_step_resolved action sid pid p) by assumption.
    unfold try_except. now rewrite bulk_try_missing.
  - intros sid' pid' q entry Hsid' Hq Hin Hname.
    destruct (outcome (bulk_try action q (bulk_label q)) s)
      as [e' | []] eqn:Hout; [now exists e' |].
    exfalso. revert Hin. unfold written.
    rewrite (bulk_step_resolved action sid' pid' q) by assumption.
    change (In entry
              (written (try_except (bulk_try action q (bulk_label q))
                                   (bulk_except (bulk_label q))) s)
            -> False).
    rewrite written_try_except
      by auto using appends_bulk_try, appends_bulk_except.
    rewrite Hout, app_nil_r. intros Hin.
    now apply (bulk_try_no_marker action q (bulk_label q) s entry).
Qed.




End Claims.

(** * The claims on the sample instance *)

Section Samples.

Import Demo.

(** C1 on the record with a cut sheet of pages [a], [b] and an image
    certification that converts to the single page [i]. *)
Lemma download_combined_order_sample :
  (products s0 !! 1 = Some pA
   /\ cutsheet_path pA = Some "uploads/cutsheets/cs-a.pdf"
   /\ files s0 !! "uploads/cutsheets/cs-a.pdf" = Some (encode "%PDFab")
   /\ cert_path pA = Some "uploads/certifications/cert-a.png"
   /\ files s0 !! "uploads/certifications/cert-a.png" = Some (encode "img"))
  /\ download_combined 1 s0
     = (inr (SendFile (Buffer (encode "%PDFabi")) "W/A -combined.pdf"), s0).
Proof.
  assert (products s0 !! 1 = Some pA) as H1 by (vm_compute; reflexivity).
  assert (cutsheet_path pA = Some "uploads/cutsheets/cs-a.pdf") as H2
    by (vm_compute; reflexivity).
  assert (files s0 !! "uploads/cutsheets/cs-a.pdf" = Some (encode "%PDFab"))
    as H3 by (vm_compute; reflexivity).
  assert (cert_path pA = Some "uploads/certifications/cert-a.png") as H4
    by (vm_compute; reflexivity).
  assert (files s0 !! "uploads/certifications/cert-a.png"
          = Some (encode "img")) as H5 by (vm_compute; reflexivity).
  split; [repeat split; assumption |].
  apply (proj2 (download_combined_order (B := backend) s0 1 pA _ _ _ _
                                        H1 H2 H3 H4 H5)
               (encode "%PDFi") (encode "ab") (encode "i"));
    vm_compute; reflexivity.
Defined.


(** C3: a record with a cut sheet and no certification. *)
Lemma download_combined_missing_sample :
  (products s0 !! 2 = Some pB
   /\ resolves s0 (cutsheet_path pB) && resolves s0 (cert_path pB) = false)
  /\ download_combined 2 s0
     = (inl (NotFound
               (if resolves s0 (cutsheet_path pB)
                then "Certification file is required to create combined file."
                else "Cutsheet is required to create combined file.")), s0).
Proof.
  assert (products s0 !! 2 = Some pB) as H1 by (vm_compute; reflexivity).
  assert (resolves s0 (cutsheet_path pB) && resolves s0 (cert_path pB)
          = false) as H2 by (vm_compute; reflexivity).
  split; [split; assumption |].
  exact (download_combined_missing s0 2 pB H1 H2).
Defined.

(** C4 as the specification states it fails: merging no stream returns a
    document. *)
Lemma merge_empty_returns :
  _merge_pdfs_stream [] = inr (encode "%PDF")
  /\ ~ (exists e, _merge_pdfs_stream [] = inl e).
Proof.
  split; [reflexivity |]. intros [e He]. discriminate He.
Qed.

Lemma merge_empty_and_single_sample :
  PdfReader (encode "%PDFxyz") = inr (encode "xyz")
  /\ _merge_pdfs_stream [] = inr (pdf_write [])
  /\ _merge_pdfs_stream [encode "%PDFxyz"] = inr (pdf_write (encode "xyz")).
Proof.
  assert (PdfReader (encode "%PDFxyz") = inr (encode "xyz")) as H
    by (vm_compute; reflexivity).
  split; [assumption |].
  exact (merge_empty_and_single (encode "%PDFxyz") (encode "xyz") H).
Defined.

(** C5: the combined kind on a record with a cut sheet only. *)
Lemma bulk_missing_skipped_sample :
  (Py.int "2" = Some 2
   /\ products s0 !! 2 = Some pB
   /\ requested_missing (Some "combined") s0 pB = true)
  /\ bulk_step (Some "combined") "2" s0 = (inr tt, s0).
Proof.
  assert (Py.int "2" = Some 2) as H1 by (vm_compute; reflexivity).
  assert (products s0 !! 2 = Some pB) as H2 by (vm_compute; reflexivity).
  assert (requested_missing (Some "combined") s0 pB = true) as H3
    by (vm_compute; reflexivity).
  split; [repeat split; assumption |].
  exact (proj1 (bulk_missing_skipped (Some "combined") "2" 2 pB s0
                                     H1 H2 H3)).
Defined.






End Samples.

(** * Further properties: uploads and stored names *)

Lemma chars_str_of l : Py.chars (Py.str_of l) = l.
Proof. apply list_ascii_of_string_of_list_ascii. Qed.

Lemma str_of_chars s : Py.str_of (Py.chars s) = s.
Proof. apply string_of_list_ascii_of_string. Qed.

Lemma chars_append a b : Py.chars (a +:+ b) = Py.chars a ++ Py.chars b.
Proof.
  induction a as [| c a IH]; [reflexivity |].
  change (c :: Py.chars (a +:+ b) = c :: (Py.chars a ++ Py.chars b)).
  now rewrite IH.
Qed.

Lemma chars_inj a b : Py.chars a = Py.chars b -> a = b.
Proof.
  intros Heq. rewrite <- (str_of_chars a), <- (str_of_chars b). now f_equal.
Qed.

Lemma elem_of_rev {A} (x : A) l : x ∈ rev l <-> x ∈ l.
Proof. rewrite !list_elem_of_In. symmetry. apply in_rev. Qed.

Lemma split_first_none c l : c ∉ l -> Py.split_first c l = None.
Proof.
  induction l as [| x l IH]; intros Hc; [reflexivity |].
  apply not_elem_of_cons in Hc as [Hne Hc]. simpl.
  destruct (Ascii.eqb_spec x c) as [-> | _]; [congruence |].
  now rewrite IH.
Qed.

Lemma split_first_app c a r :
  c ∉ a -> Py.split_first c (a ++ c :: r) = Some (a, r).
Proof.
  induction a as [| x a IH]; intros Hc; simpl.
  - now rewrite Ascii.eqb_refl.
  - apply not_elem_of_cons in Hc as [Hne Hc].
    destruct (Ascii.eqb_spec x c) as [-> | _]; [congruence |].
    now rewrite IH.
Qed.

Lemma split_first_some c l a b :
  Py.split_first c l = Some (a, b) -> l = a ++ c :: b /\ c ∉ a.
Proof.
  revert a. induction l as [| x l IH]; intros a; simpl; [discriminate |].
  destruct (Ascii.eqb_spec x c) as [-> | Hne].
  - intros [= <- <-]. split; [reflexivity | apply not_elem_of_nil].
  - destruct (Py.split_first c l) as [[a' b'] |]; [| discriminate].
    intros [= <- <-]. destruct (IH a' eq_refl) as [-> Hc].
    split; [reflexivity |]. apply not_elem_of_cons. split; congruence.
Qed.

(** The final component of a path that ends in [c], a dot and an extension
    free of dots and slashes has that extension as its suffix. *)
Lemma suffix_of_extension pre c e :
  c <> "/"%char -> e <> [] -> "."%char ∉ e -> "/"%char ∉ e ->
  Py.suffix (Py.str_of (pre ++ c :: "."%char :: e))
  = Py.str_of ("."%char :: e).
Proof.
  intros Hc He Hdot Hslash.
  assert ("/"%char ∉ rev e ++ ["."%char; c]) as Htail.
  { rewrite not_elem_of_app, elem_of_rev. split; [assumption |].
    rewrite !not_elem_of_cons. repeat split; try congruence.
    apply not_elem_of_nil. }
  assert (exists stem, Py.chars (Py.path_name
                                   (Py.str_of (pre ++ c :: "."%char :: e)))
                       = stem ++ c :: "."%char :: e) as [stem Hname].
  { unfold Py.path_name. rewrite chars_str_of.
    destruct (Py.split_first "/" _) as [[a b] |] eqn:Hsplit.
    - apply split_first_some in Hsplit as [Hrev Ha].
      rewrite chars_str_of.
      assert (rev (pre ++ c :: "."%char :: e)
              = (rev e ++ ["."%char; c]) ++ rev pre) as Hshape.
      { rewrite rev_app_distr. simpl. now rewrite <- !app_assoc. }
      rewrite Hshape in Hrev.
      assert (exists a', a = (rev e ++ ["."%char; c]) ++ a') as [a' ->].
      { clear Hshape. revert a Hrev Ha Htail.
        generalize (rev e ++ ["."%char; c]) as t.
        induction t as [| x t IH]; intros a Hrev Ha Ht; [now exists a |].
        apply not_elem_of_cons in Ht as [Hx Ht].
        destruct a as [| y a]; simpl in Hrev.
        - injection Hrev as Hxy _. congruence.
        - injection Hrev as <- Hrev.
          apply not_elem_of_cons in Ha as [_ Ha].
          destruct (IH a Hrev Ha Ht) as [a' ->]. now exists a'. }
      exists (rev a'). rewrite !rev_app_distr. simpl.
      rewrite rev_involutive. reflexivity.
    - exists pre. now rewrite chars_str_of. }
  unfold Py.suffix. rewrite Hname.
  assert (rev (stem ++ c :: "."%char :: e)
          = rev e ++ "."%char :: c :: rev stem) as ->.
  { rewrite rev_app_distr. simpl. now rewrite <- !app_assoc. }
  rewrite split_first_app by (now rewrite elem_of_rev).
  destruct (rev e) as [| x r] eqn:Hrev.
  - apply (f_equal (@rev ascii)) in Hrev. rewrite rev_involutive in Hrev.
    contradiction.
  - rewrite <- Hrev. now rewrite rev_involutive.
Qed.

Lemma lower_char_fixes (x : ascii) c :
  (x = "."%char \/ x = "/"%char) -> Py.lower_char c = x -> c = x.
Proof.
  intros [-> | ->];
    destruct c as [[|] [|] [|] [|] [|] [|] [|] [|]]; vm_compute;
    intros Heq; try reflexivity; discriminate Heq.
Qed.

Lemma lower_str_of l : Py.lower (Py.str_of l) = Py.str_of (map Py.lower_char l).
Proof. unfold Py.lower. now rewrite chars_str_of. Qed.

Lemma lower_keeps_free (x : ascii) l :
  (x = "."%char \/ x = "/"%char) -> x ∉ l -> x ∉ map Py.lower_char l.
Proof.
  intros Hx Hl Hin. apply list_elem_of_fmap in Hin as (c & Heq & Hc).
  symmetry in Heq. apply (lower_char_fixes x c Hx) in Heq. congruence.
Qed.

Lemma split_on_free sep l : sep ∉ l -> Posix.split_on sep l = [l].
Proof.
  induction l as [| c l IH]; intros Hsep; [reflexivity |].
  apply not_elem_of_cons in Hsep as [Hne Hsep]. simpl.
  destruct (Ascii.eqb_spec c sep) as [-> | _]; [congruence |].
  now rewrite IH.
Qed.

Lemma split_on_parts sep l part :
  part ∈ Posix.split_on sep l -> sep ∉ part.
Proof.
  revert part. induction l as [| c l IH]; intros part; simpl.
  - intros ->%list_elem_of_singleton. apply not_elem_of_nil.
  - destruct (Ascii.eqb_spec c sep) as [-> | Hne].
    + intros [-> | Hin]%elem_of_cons; [apply not_elem_of_nil | now apply IH].
    + destruct (Posix.split_on sep l) as [| cur rest].
      * intros ->%list_elem_of_singleton.
        apply not_elem_of_cons. split; [congruence | apply not_elem_of_nil].
      * intros [-> | Hin]%elem_of_cons.
        -- apply not_elem_of_cons. split; [congruence |].
           apply IH. now left.
        -- apply IH. now right.
Qed.

Lemma name_chars_no_slash path : "/"%char ∉ Posix.name_chars path.
Proof.
  unfold Posix.name_chars.
  destruct (last _) as [part |] eqn:Hlast; simpl; [| apply not_elem_of_nil].
  apply last_Some in Hlast as [init Hlast].
  apply (split_on_parts "/" (Py.chars path)).
  assert (part ∈ filter (fun p => Posix.kept p = true)
                        (Posix.split_on "/" (Py.chars path))) as Hin
    by (rewrite Hlast; apply elem_of_app; right; now left).
  now apply list_elem_of_filter in Hin as [_ Hin].
Qed.

(** A suffix is empty, or a dot followed by characters of the name among
    which there is no dot. *)
Lemma suffix_chars_shape n :
  Posix.suffix_chars n = []
  \/ exists e, Posix.suffix_chars n = "."%char :: e /\ e <> []
               /\ ("."%char ∉ e) /\ (forall x, x ∈ e -> x ∈ n).
Proof.
  unfold Posix.suffix_chars.
  destruct (Py.split_first "." (rev n)) as [[ext_rev stem_rev] |] eqn:Hsplit;
    [| now left].
  destruct ext_rev as [| x ext_rev]; [now left |].
  destruct stem_rev as [| y stem_rev]; [now left |].
  right. exists (rev (x :: ext_rev)).
  apply split_first_some in Hsplit as [Hrev Hfree].
  split; [reflexivity |]. split; [| split].
  - intros Hnil. apply (f_equal (@length ascii)) in Hnil.
    rewrite length_rev in Hnil. discriminate Hnil.
  - now rewrite elem_of_rev.
  - intros c Hc. rewrite elem_of_rev in Hc.
    rewrite <- (elem_of_rev c n), Hrev. apply elem_of_app. now left.
Qed.

Lemma hex_digit_code d :
  0 <= d < 16 ->
  nat_of_ascii (hex_digit d) = Z.to_nat (if d <? 10 then 48 + d else 87 + d).
Proof.
  intros Hd. unfold hex_digit. apply nat_ascii_embedding.
  destruct (d <? 10) eqn:Hlt; lia.
Qed.

Lemma hex_digit_inj d1 d2 :
  0 <= d1 < 16 -> 0 <= d2 < 16 -> hex_digit d1 = hex_digit d2 -> d1 = d2.
Proof.
  intros H1 H2 Heq. apply (f_equal nat_of_ascii) in Heq.
  rewrite !hex_digit_code in Heq by assumption.
  destruct (d1 <? 10) eqn:E1, (d2 <? 10) eqn:E2; lia.
Qed.

Lemma hex_digit_not_slash d : 0 <= d < 16 -> hex_digit d <> "/"%char.
Proof.
  intros Hd Heq. apply (f_equal nat_of_ascii) in Heq.
  rewrite hex_digit_code in Heq by assumption.
  change (nat_of_ascii "/") with 47%nat in Heq.
  destruct (d <? 10); lia.
Qed.

Lemma hex_digits_inj k n1 n2 :
  0 <= n1 < 16 ^ Z.of_nat k -> 0 <= n2 < 16 ^ Z.of_nat k ->
  hex_digits k n1 = hex_digits k n2 -> n1 = n2.
Proof.
  revert n1 n2. induction k as [| k IH]; intros n1 n2 H1 H2 Heq.
  - change (16 ^ Z.of_nat 0) with 1 in *. lia.
  - rewrite Nat2Z.inj_succ, Z.pow_succ_r in H1, H2 by lia.
    simpl in Heq. apply app_inj_tail in Heq as [Hhigh Hlow].
    apply hex_digit_inj in Hlow; try (apply Z.mod_pos_bound; lia).
    apply IH in Hhigh;
      try (split; [apply Z.div_pos; lia | apply Z.div_lt_upper_bound; lia]).
    rewrite (Z.div_mod n1 16), (Z.div_mod n2 16) by lia. congruence.
Qed.

Section UploadFacts.

Context {host : Host}.

(** X1.  Every file the cut sheet check accepts is accepted by the
    certification check, under the same name. *)
Theorem cutsheet_upload_valid_as_cert file_storage accepted :
  _validate_cutsheet file_storage = inr accepted ->
  _validate_cert file_storage = inr accepted.
Proof.
  unfold _validate_cutsheet, _validate_cert, validate_upload, _ext_ok.
  destruct file_storage as [f |]; [| discriminate].
  destruct (negb (uploaded (Some f))); [discriminate |].
  simpl. destruct (String.eqb _ ".pdf"); simpl; [trivial | discriminate].
Qed.

(** X2.  A file whose name is a dot followed by an extension, such as
    [.pdf], has no suffix for [pathlib], so all three checks refuse it with
    their wrong-type message. *)
Theorem dotfile_upload_rejected e data :
  "."%char ∉ Py.chars e -> "/"%char ∉ Py.chars e ->
  let file_storage := Some (mkFileStorage ("." +:+ e) data) in
  _validate_cutsheet file_storage = inl (ValueError "Cutsheet must be a PDF.")
  /\ _validate_cert file_storage
     = inl (ValueError "Certification must be a PDF or image (png/jpg/jpeg).")
  /\ _validate_image file_storage
     = inl (ValueError "Image must be png/jpg/jpeg/webp.").
Proof.
  intros Hdot Hslash file_storage.
  assert (Posix.suffix ("." +:+ e) = "") as Hsuffix.
  { unfold Posix.suffix, Posix.name_chars.
    change (Py.chars ("." +:+ e)) with ("."%char :: Py.chars e).
    rewrite split_on_free
      by (apply not_elem_of_cons; split; [discriminate | assumption]).
    assert (Posix.suffix_chars ("."%char :: Py.chars e) = []) as Hnone.
    { unfold Posix.suffix_chars.
      change (rev ("."%char :: Py.chars e))
        with (rev (Py.chars e) ++ ["."%char]).
      rewrite split_first_app by (now rewrite elem_of_rev).
      now destruct (rev (Py.chars e)). }
    rewrite filter_cons, filter_nil.
    case_decide; simpl; [now rewrite Hnone | reflexivity]. }
  unfold _validate_cutsheet, _validate_cert, _validate_image, validate_upload,
    _ext_ok. subst file_storage. simpl. now rewrite Hsuffix.
Qed.

Lemma stored_path_suffix dir original uuid :
  Posix.suffix original <> "" ->
  Py.suffix (path_join dir (_safe_unique_name original uuid))
  = Py.lower (Posix.suffix original).
Proof.
  intros Hsuffix. unfold Posix.suffix in *.
  destruct (suffix_chars_shape (Posix.name_chars original))
    as [Hnone | (e & Hshape & He & Hdot & Hsub)];
    [now rewrite Hnone in Hsuffix |].
  assert ("/"%char ∉ e) as Hslash.
  { intros Hin. apply (name_chars_no_slash original). now apply Hsub. }
  unfold _safe_unique_name, path_join, Posix.suffix.
  rewrite Hshape, lower_str_of.
  set (base := or_else _ "file").
  set (e' := map Py.lower_char e).
  assert (Py.str_of (map Py.lower_char ("."%char :: e))
          = Py.str_of ("."%char :: e')) as -> by reflexivity.
  set (tail := hex_digit (uuid mod 16)).
  assert (dir +:+ "/" +:+ base +:+ "-" +:+ uuid_hex uuid
            +:+ Py.str_of ("."%char :: e')
          = Py.str_of ((Py.chars dir ++ "/"%char :: Py.chars base
                          ++ "-"%char :: hex_digits 31 (uuid / 16))
                         ++ tail :: "."%char :: e')) as ->.
  { apply chars_inj. unfold uuid_hex.
    rewrite !chars_append, !chars_str_of.
    change (hex_digits 32 uuid) with (hex_digits 31 (uuid / 16) ++ [tail]).
    change (Py.chars "/") with ["/"%char].
    change (Py.chars "-") with ["-"%char].
    rewrite <- !app_assoc. simpl. now rewrite <- !app_assoc. }
  apply suffix_of_extension.
  - apply hex_digit_not_slash, Z.mod_pos_bound. lia.
  - subst e'. now destruct e.
  - now apply lower_keeps_free; [left |].
  - now apply lower_keeps_free; [right |].
Qed.

(** X3.  The name under which an upload is stored keeps the upload's
    extension in lower case: whatever [secure_filename] and [uuid4] return,
    the suffix of the stored path is the lower-cased suffix of the name the
    client sent, whenever that one is not empty. *)
Theorem stored_name_keeps_extension dir original uuid :
  Posix.suffix original <> "" ->
  Py.suffix (path_join dir (_safe_unique_name original uuid))
  = Py.lower (Posix.suffix original).
Proof. apply stored_path_suffix. Qed.

(** X4.  For one upload name, two different 128-bit [uuid4] values give two
    different stored names. *)
Theorem stored_names_distinct original uuid1 uuid2 :
  0 <= uuid1 < 2 ^ 128 -> 0 <= uuid2 < 2 ^ 128 -> uuid1 <> uuid2 ->
  _safe_unique_name original uuid1 <> _safe_unique_name original uuid2.
Proof.
  intros H1 H2 Hne Heq. apply Hne. unfold _safe_unique_name, uuid_hex in Heq.
  apply append_cancel in Heq. apply append_cancel in Heq.
  apply (f_equal Py.chars) in Heq.
  rewrite !chars_append, !chars_str_of in Heq.
  apply app_inv_tail in Heq.
  apply (hex_digits_inj 32); [| | assumption];
    change (16 ^ Z.of_nat 32) with (2 ^ 128); assumption.
Qed.

End UploadFacts.

(** * Further properties: create, update, delete *)

Lemma lstrip_all sp l :
  Forall (fun c => sp c = true) l -> Py.lstrip_chars sp l = [].
Proof. induction 1 as [| c l Hc _ IH]; simpl; [reflexivity | now rewrite Hc]. Qed.

Lemma field_blank value :
  (forall n, value = Some n ->
             Forall (fun c => Py.is_space c = true) (Py.chars n)) ->
  field value = "".
Proof.
  intros Hblank. unfold field, Py.strip, Py.strip_chars.
  assert (Forall (fun c => Py.is_space c = true)
                 (Py.chars (py_or value ""))) as Hall.
  { unfold py_or. destruct value as [n |]; [| constructor].
    destruct (Py.truthy (Some n)); [now apply Hblank | constructor]. }
  now rewrite (lstrip_all _ _ Hall).
Qed.

Lemma bind_unfold {A B} (m : M A) (k : A -> M B) s :
  bind m k s = match m s with
               | (inr a, s') => k a s'
               | (inl e, s') => (inl e, s')
               end.
Proof. reflexivity. Qed.

Lemma get_or_404_run pid s :
  get_or_404 pid s
  = match products s !! pid with
    | Some p => (inr p, s)
    | None =>
        (inl (NotFound "The requested URL was not found on the server."), s)
    end.
Proof.
  unfold get_or_404, query_get, bind. now destruct (products s !! pid).
Qed.

Lemma kept_outside_refl paths pk s : kept_outside paths pk s s.
Proof. now split. Qed.

Lemma kept_outside_trans paths pk s1 s2 s3 :
  kept_outside paths pk s1 s2 -> kept_outside paths pk s2 s3 ->
  kept_outside paths pk s1 s3.
Proof.
  intros [Hf12 Hp12] [Hf23 Hp23]. split.
  - intros path Hout Hsome. now apply Hf23, Hf12.
  - intros k Hk. now rewrite Hp23, Hp12.
Qed.

Lemma kept_bind {A B} paths pk (m : M A) (k : A -> M B) s :
  kept_outside paths pk s (snd (m s)) ->
  (forall a s', kept_outside paths pk s' (snd (k a s'))) ->
  kept_outside paths pk s (snd (bind m k s)).
Proof.
  intros Hm Hk. unfold bind. destruct (m s) as [[e | a] s1]; [exact Hm |].
  eapply kept_outside_trans; [exact Hm | apply Hk].
Qed.

Lemma kept_try_except {A} paths pk (m : M A) (h : exn -> M A) s :
  kept_outside paths pk s (snd (m s)) ->
  (forall e s', kept_outside paths pk s' (snd (h e s'))) ->
  kept_outside paths pk s (snd (try_except m h s)).
Proof.
  intros Hm Hh. unfold try_except. destruct (m s) as [[e | a] s1]; [| exact Hm].
  eapply kept_outside_trans; [exact Hm | apply Hh].
Qed.

Lemma kept_save_file paths pk path data s :
  kept_outside paths pk s (snd (save_file path data s)).
Proof.
  split; [| reflexivity]. intros other _ Hsome. simpl.
  apply lookup_insert_is_Some. destruct (decide (path = other)); auto.
Qed.

Lemma kept_db_commit paths pk p s :
  kept_outside paths pk s (snd (db_commit pk p s)).
Proof.
  split; [trivial |]. intros k Hk. simpl. now apply lookup_insert_ne.
Qed.

Lemma kept_db_delete paths pk s :
  kept_outside paths pk s (snd (db_delete pk s)).
Proof.
  split; [trivial |]. intros k Hk. simpl. now apply lookup_delete_ne.
Qed.

Lemma kept_read_bytes paths pk path s :
  kept_outside paths pk s (snd (read_bytes path s)).
Proof.
  unfold read_bytes. destruct (files s !! path); apply kept_outside_refl.
Qed.

Section ManagementFacts.

Context {host : Host}.

Lemma kept_unlink paths pk path s :
  path ∈ paths -> kept_outside paths pk s (snd (unlink path s)).
Proof.
  intros Hin. unfold unlink.
  destruct (files s !! path); [| apply kept_outside_refl].
  destruct (unlink_fails path); [apply kept_outside_refl |].
  split; [| reflexivity]. intros other Hout Hsome. simpl.
  rewrite lookup_delete_ne; [assumption | congruence].
Qed.

Lemma kept_unlink_if_present paths pk ref s :
  (forall path, ref = Some path -> path ∈ paths) ->
  kept_outside paths pk s (snd (unlink_if_present ref s)).
Proof.
  intros Hin. unfold unlink_if_present.
  destruct ref as [old |]; [| apply kept_outside_refl].
  apply kept_bind; [apply kept_outside_refl |]. intros [|] s';
    [| apply kept_outside_refl].
  apply kept_try_except; [apply kept_unlink; auto |].
  intros _ s''. apply kept_outside_refl.
Qed.

Lemma kept_create_upload paths pk validate dir file_storage uuids drawn s :
  kept_outside paths pk s
    (snd (create_upload validate dir file_storage uuids drawn s)).
Proof.
  unfold create_upload. destruct file_storage as [f |];
    [| apply kept_outside_refl].
  destruct (uploaded (Some f)); [| apply kept_outside_refl].
  apply kept_bind; [apply kept_outside_refl |]. intros _ s1.
  apply kept_bind; [apply kept_save_file |]. intros _ s2.
  apply kept_outside_refl.
Qed.

Lemma kept_update_upload paths pk validate dir current file_storage
    uuids drawn s :
  (forall n, Py.truthy current = true -> current = Some n ->
             path_join dir n ∈ paths) ->
  kept_outside paths pk s
    (snd (update_upload validate dir current file_storage uuids drawn s)).
Proof.
  intros Hin. unfold update_upload. destruct file_storage as [f |];
    [| apply kept_outside_refl].
  destruct (uploaded (Some f)); [| apply kept_outside_refl].
  apply kept_bind; [apply kept_outside_refl |]. intros _ s1.
  apply kept_bind.
  - destruct (Py.truthy current) eqn:Htruthy; [| apply kept_outside_refl].
    apply kept_unlink_if_present. intros path Hpath.
    destruct current as [n |]; [| discriminate].
    injection Hpath as <-. now apply Hin.
  - intros _ s2. apply kept_bind; [apply kept_save_file |]. intros _ s3.
    apply kept_outside_refl.
Qed.

Lemma record_paths_cutsheet p path :
  cutsheet_path p = Some path -> path ∈ record_paths p.
Proof. intros Hp. unfold record_paths. simpl. rewrite Hp. now left. Qed.

Lemma record_paths_cert p path :
  cert_path p = Some path -> path ∈ record_paths p.
Proof.
  intros Hp. unfold record_paths. simpl. rewrite Hp.
  destruct (cutsheet_path p); [right |]; now left.
Qed.

Lemma record_paths_image p path :
  image_path p = Some path -> path ∈ record_paths p.
Proof.
  intros Hp. unfold record_paths. simpl. rewrite Hp.
  destruct (cutsheet_path p), (cert_path p);
    repeat first [now left | right].
Qed.

(** X5.  A name that is missing or made of white space only is refused:
    [product_create] flashes "Name is required", redirects to the form, and
    stores neither a row nor any of the uploaded files. *)
Theorem create_blank_name_rejected form files_ uuids pk s :
  (forall n, form_name form = Some n ->
             Forall (fun c => Py.is_space c = true) (Py.chars n)) ->
  product_create form files_ uuids pk s
  = (inr (Redirect "product_new"),
     mkState (products s) (files s)
             (flashes s ++ [("error", "Name is required")]) (zf s)).
Proof.
  intros Hblank. unfold product_create. now rewrite (field_blank _ Hblank).
Qed.

(** X6.  Whatever it is given and however it ends, [product_create] makes
    no stored file disappear and changes no row other than the one under
    the new primary key. *)
Theorem create_never_destroys form files_ uuids pk s :
  kept_outside [] pk s (snd (product_create form files_ uuids pk s)).
Proof.
  unfold product_create. destruct (String.eqb _ ""); [now split |].
  apply kept_bind; [apply kept_create_upload |]. intros cs s1.
  apply kept_bind; [apply kept_create_upload |]. intros cert s2.
  apply kept_bind; [apply kept_create_upload |]. intros img s3.
  apply kept_bind; [apply kept_db_commit |]. intros _ s4.
  now split.
Qed.

(** X7.  [product_update] and [product_delete] make no stored file
    disappear other than the files the row referred to, and change no other
    row, whatever they are given and however they end. *)
Theorem update_delete_frame pid form files_ uuids s :
  let paths := default [] (record_paths <$> products s !! pid) in
  kept_outside paths pid s (snd (product_update pid form files_ uuids s))
  /\ kept_outside paths pid s (snd (product_delete pid s)).
Proof.
  intros paths. subst paths. unfold product_update, product_delete.
  rewrite !bind_unfold, get_or_404_run.
  destruct (products s !! pid) as [p |]; simpl;
    [| split; apply kept_outside_refl].
  assert (forall dir current getter,
             (forall path, getter = Some path -> path ∈ record_paths p) ->
             getter = (if Py.truthy current
                       then path_join dir <$> current else None) ->
             forall n, Py.truthy current = true -> current = Some n ->
                       path_join dir n ∈ record_paths p) as Hold.
  { intros dir current getter Hin Hget n Htruthy ->.
    apply Hin. now rewrite Hget, Htruthy. }
  split.
  - apply kept_bind.
    { apply kept_update_upload.
      apply (Hold _ _ (cutsheet_path p) (record_paths_cutsheet p) eq_refl). }
    intros cs s1. apply kept_bind.
    { apply kept_update_upload.
      apply (Hold _ _ (cert_path p) (record_paths_cert p) eq_refl). }
    intros cert s2. apply kept_bind.
    { apply kept_update_upload.
      apply (Hold _ _ (image_path p) (record_paths_image p) eq_refl). }
    intros img s3. apply kept_bind; [apply kept_db_commit |].
    intros _ s4. now split.
  - apply kept_bind;
      [apply kept_unlink_if_present, record_paths_cutsheet |].
    intros _ s1. apply kept_bind;
      [apply kept_unlink_if_present, record_paths_cert |].
    intros _ s2. apply kept_bind;
      [apply kept_unlink_if_present, record_paths_image |].
    intros _ s3. apply kept_bind; [apply kept_db_delete |].
    intros _ s4. now split.
Qed.

End ManagementFacts.

Lemma upload_dirs_apart a b :
  path_join CUTSHEETS_DIR a <> path_join CERTS_DIR b
  /\ path_join CUTSHEETS_DIR a <> path_join IMAGES_DIR b
  /\ path_join CERTS_DIR a <> path_join IMAGES_DIR b.
Proof. repeat split; intros Heq; cbv in Heq; discriminate Heq. Qed.

Lemma state_eta s : mkState (products s) (files s) (flashes s) (zf s) = s.
Proof. now destruct s. Qed.

Section CreateFacts.

Context {host : Host}.

Lemma safe_unique_name_truthy original uuid :
  Py.truthy (Some (_safe_unique_name original uuid)) = true.
Proof.
  unfold _safe_unique_name, or_else. simpl.
  destruct (secure_filename (Posix.stem original)) as [| c rest];
    reflexivity.
Qed.

Lemma create_upload_skip validate dir file_storage uuids drawn s :
  uploaded file_storage = false ->
  create_upload validate dir file_storage uuids drawn s
  = (inr (None, drawn), s).
Proof.
  intros Hno. unfold create_upload.
  destruct file_storage as [f |]; [| reflexivity]. now rewrite Hno.
Qed.

Lemma create_upload_refused validate dir file_storage uuids drawn s e :
  uploaded file_storage = true -> validate file_storage = inl e ->
  create_upload validate dir file_storage uuids drawn s = (inl e, s).
Proof.
  intros Hup Hbad. unfold create_upload.
  destruct file_storage as [f |]; [| discriminate].
  rewrite Hup. unfold bind, lift. now rewrite Hbad.
Qed.

Lemma create_upload_saved validate dir f uuids drawn s accepted :
  uploaded (Some f) = true -> validate (Some f) = inr accepted ->
  create_upload validate dir (Some f) uuids drawn s
  = (inr (Some (_safe_unique_name (filename f) (uuids drawn)), S drawn),
     mkState (products s)
             (<[path_join dir (_safe_unique_name (filename f) (uuids drawn))
                := stream f]> (files s))
             (flashes s) (zf s)).
Proof.
  intros Hup Hok. unfold create_upload. rewrite Hup.
  unfold bind, lift. now rewrite Hok.
Qed.

(** What one upload block does when its field is acceptable. *)
Lemma create_upload_acceptable validate dir file_storage uuids drawn s :
  acceptable validate file_storage ->
  exists ref n disk,
    create_upload validate dir file_storage uuids drawn s
    = (inr (ref, n), mkState (products s) disk (flashes s) (zf s))
    /\ (ref = None \/ Py.truthy ref = true)
    /\ stored_as (mkState (products s) disk (flashes s) (zf s)) file_storage
                 (path_join dir <$> ref)
    /\ (forall path, (forall stored, path <> path_join dir stored) ->
                     disk !! path = files s !! path).
Proof.
  intros Hok. destruct (uploaded file_storage) eqn:Hup.
  - destruct Hok as [Hno | [accepted Hok]]; [congruence |].
    destruct file_storage as [f |]; [| discriminate].
    eexists _, _, _. rewrite (create_upload_saved _ _ _ _ _ _ accepted)
      by assumption.
    split; [reflexivity |]. split; [| split].
    + right. apply safe_unique_name_truthy.
    + unfold stored_as. rewrite Hup. eexists. split; [reflexivity |].
      simpl. apply lookup_insert_eq.
    + intros path Hother. apply lookup_insert_ne. apply not_eq_sym, Hother.
  - exists None, drawn, (files s).
    rewrite create_upload_skip, state_eta by assumption.
    split; [reflexivity |]. split; [now left |]. split; [| reflexivity].
    unfold stored_as. destruct file_storage; [now rewrite Hup | reflexivity].
Qed.

Lemma stored_as_frame s disk1 disk2 file_storage ref :
  (forall path, ref = Some path -> disk2 !! path = disk1 !! path) ->
  stored_as (mkState (products s) disk1 (flashes s) (zf s)) file_storage ref ->
  forall table notices,
    stored_as (mkState table disk2 notices (zf s)) file_storage ref.
Proof.
  intros Hsame Hstored table notices. unfold stored_as in *.
  destruct file_storage as [f |]; [| assumption].
  destruct (uploaded (Some f)); [| assumption].
  destruct Hstored as (path & -> & Hpath). exists path.
  split; [reflexivity |]. simpl in *. now rewrite Hsame.
Qed.

Lemma ref_path_of dir ref :
  ref = None \/ Py.truthy ref = true ->
  (if Py.truthy ref then path_join dir <$> ref else None)
  = path_join dir <$> ref.
Proof. intros [-> | ->]; reflexivity. Qed.

(** X8.  When the name is not blank and every upload field is empty or
    passes its check, [product_create] redirects to the index and stores one
    row under the new key: its name is the trimmed name, [sku] mirrors
    [model_number], every upload sits behind the row's reference with the
    bytes the client sent, and a field with no upload leaves the reference
    unset. *)
Theorem create_stores_uploads form files_ uuids pk s :
  field (form_name form) <> "" ->
  acceptable _validate_cutsheet (up_cutsheet files_) ->
  acceptable _validate_cert (up_cert files_) ->
  acceptable _validate_image (up_image files_) ->
  exists p s',
    product_create form files_ uuids pk s = (inr (Redirect "index"), s')
    /\ products s' = <[pk := p]> (products s)
    /\ name p = field (form_name form)
    /\ sku p = model_number p
    /\ stored_as s' (up_cutsheet files_) (cutsheet_path p)
    /\ stored_as s' (up_cert files_) (cert_path p)
    /\ stored_as s' (up_image files_) (image_path p).
Proof.
  intros Hname Hcs Hcert Himg. unfold product_create.
  apply String.eqb_neq in Hname. rewrite Hname.
  destruct (create_upload_acceptable _ CUTSHEETS_DIR _ uuids 0%nat s Hcs)
    as (r1 & n1 & d1 & Hrun1 & Ht1 & Hst1 & Hfr1).
  rewrite bind_unfold, Hrun1. cbv beta iota. cbn [fst snd].
  destruct (create_upload_acceptable _ CERTS_DIR _ uuids n1
              (mkState (products s) d1 (flashes s) (zf s)) Hcert)
    as (r2 & n2 & d2 & Hrun2 & Ht2 & Hst2 & Hfr2).
  cbn [products files flashes zf] in Hrun2, Hst2, Hfr2.
  rewrite bind_unfold, Hrun2. cbv beta iota. cbn [fst snd].
  destruct (create_upload_acceptable _ IMAGES_DIR _ uuids n2
              (mkState (products s) d2 (flashes s) (zf s)) Himg)
    as (r3 & n3 & d3 & Hrun3 & Ht3 & Hst3 & Hfr3).
  cbn [products files flashes zf] in Hrun3, Hst3, Hfr3.
  rewrite bind_unfold, Hrun3. cbv beta iota. cbn [fst snd].
  eexists _, _. split; [reflexivity |]. simpl.
  split; [reflexivity |]. split; [reflexivity |]. split; [reflexivity |].
  unfold cutsheet_path, cert_path, image_path. simpl.
  rewrite !ref_path_of by assumption.
  split; [| split].
  - apply (stored_as_frame s d1); [| assumption].
    intros path Hpath. destruct r1 as [stored |]; [| discriminate].
    injection Hpath as <-. rewrite Hfr3, Hfr2; [reflexivity | |];
      intros other; apply upload_dirs_apart.
  - apply (stored_as_frame s d2); [| assumption].
    intros path Hpath. destruct r2 as [stored |]; [| discriminate].
    injection Hpath as <-. rewrite Hfr3; [reflexivity |].
    intros other; apply upload_dirs_apart.
  - now apply (stored_as_frame s d3).
Qed.

(** X9.  Uploads are saved one by one before the row is written: when the
    cut sheet passes its check but the certification is refused,
    [product_create] ends with the certification's [ValueError], adds no
    row, and the cut sheet file stays stored with no row referring to it. *)
Theorem create_refused_cert_leaves_cutsheet form files_ uuids pk s f accepted e :
  field (form_name form) <> "" ->
  up_cutsheet files_ = Some f -> uploaded (Some f) = true ->
  _validate_cutsheet (Some f) = inr accepted ->
  uploaded (up_cert files_) = true ->
  _validate_cert (up_cert files_) = inl e ->
  product_create form files_ uuids pk s
  = (inl e,
     mkState (products s)
             (<[path_join CUTSHEETS_DIR
                          (_safe_unique_name (filename f) (uuids 0%nat))
                := stream f]> (files s))
             (flashes s) (zf s)).
Proof.
  intros Hname Hf Hup Hok Hcert Hbad. unfold product_create.
  apply String.eqb_neq in Hname. rewrite Hname, Hf.
  rewrite bind_unfold, (create_upload_saved _ _ _ _ _ _ accepted)
    by assumption.
  rewrite bind_unfold, (create_upload_refused _ _ _ _ _ _ e) by assumption.
  reflexivity.
Qed.

End CreateFacts.

Lemma path_join_inj dir a b : path_join dir a = path_join dir b -> a = b.
Proof. unfold path_join. intros Heq. now do 2 apply append_cancel in Heq. Qed.

Lemma download_cutsheet_gone pid p path s :
  products s !! pid = Some p -> cutsheet_path p = Some path ->
  files s !! path = None ->
  download_cutsheet pid s = (inl (NotFound "Cutsheet not found"), s).
Proof.
  intros Hp Hpath Hgone. unfold download_cutsheet.
  rewrite bind_unfold, get_or_404_run, Hp, Hpath.
  unfold bind, path_exists. rewrite Hgone.
  rewrite bool_decide_false by (intros [? ?]; discriminate). reflexivity.
Qed.

Section UpdateDeleteFacts.

Context {host : Host} {B : Backend}.

Lemma update_upload_skip validate dir current file_storage uuids drawn s :
  uploaded file_storage = false ->
  update_upload validate dir current file_storage uuids drawn s
  = (inr (current, drawn), s).
Proof.
  intros Hno. unfold update_upload.
  destruct file_storage as [f |]; [| reflexivity]. now rewrite Hno.
Qed.

Lemma update_upload_refused validate dir current file_storage uuids drawn s e :
  uploaded file_storage = true -> validate file_storage = inl e ->
  update_upload validate dir current file_storage uuids drawn s = (inl e, s).
Proof.
  intros Hup Hbad. unfold update_upload.
  destruct file_storage as [f |]; [| discriminate].
  rewrite Hup. unfold bind, lift. now rewrite Hbad.
Qed.

Lemma update_upload_replaced validate dir n f uuids drawn s accepted b :
  uploaded (Some f) = true -> validate (Some f) = inr accepted ->
  Py.truthy (Some n) = true ->
  files s !! path_join dir n = Some b ->
  unlink_fails (path_join dir n) = false ->
  update_upload validate dir (Some n) (Some f) uuids drawn s
  = (inr (Some (_safe_unique_name (filename f) (uuids drawn)), S drawn),
     mkState (products s)
             (<[path_join dir (_safe_unique_name (filename f) (uuids drawn))
                := stream f]> (delete (path_join dir n) (files s)))
             (flashes s) (zf s)).
Proof.
  intros Hup Hok Htruthy Hold Hunlink. unfold update_upload.
  rewrite Hup, Htruthy.
  change (path_join dir <$> Some n) with (Some (path_join dir n)).
  unfold unlink_if_present, try_except, unlink, path_exists, bind, lift.
  rewrite Hok.
  repeat first
    [ rewrite Hold | rewrite Hunlink
    | rewrite bool_decide_true by (eexists; reflexivity)
    | progress cbv beta iota ].
  reflexivity.
Qed.

(** X10.  Replacing the cut sheet of a row: the file the row pointed to is
    removed, the new file is stored under a fresh name, and the committed
    row points to it.  A blank name in the form keeps the old name, [sku]
    mirrors [model_number], and the other two references stay as they
    were. *)
Theorem update_replaces_cutsheet pid p n b f accepted form files_ uuids s :
  products s !! pid = Some p ->
  cutsheet_filename p = Some n -> Py.truthy (Some n) = true ->
  files s !! path_join CUTSHEETS_DIR n = Some b ->
  unlink_fails (path_join CUTSHEETS_DIR n) = false ->
  up_cutsheet files_ = Some f -> uploaded (Some f) = true ->
  _validate_cutsheet (Some f) = inr accepted ->
  uploaded (up_cert files_) = false -> uploaded (up_image files_) = false ->
  let newname := _safe_unique_name (filename f) (uuids 0%nat) in
  exists p',
    product_update pid form files_ uuids s
    = (inr (Redirect "index"),
       mkState (<[pid := p']> (products s))
               (<[path_join CUTSHEETS_DIR newname := stream f]>
                  (delete (path_join CUTSHEETS_DIR n) (files s)))
               (flashes s ++ [("success", "Product updated")]) (zf s))
    /\ cutsheet_filename p' = Some newname
    /\ cert_filename p' = cert_filename p
    /\ image_filename p' = image_filename p
    /\ name p' = or_else (field (form_name form)) (name p)
    /\ sku p' = model_number p'.
Proof.
  intros Hp Hn Htruthy Hold Hunlink Hf Hup Hok Hcert Himg newname.
  unfold product_update.
  rewrite bind_unfold, get_or_404_run, Hp, Hn, Hf.
  rewrite bind_unfold, (update_upload_replaced _ _ _ _ _ _ _ accepted b)
    by assumption.
  rewrite bind_unfold, update_upload_skip by assumption.
  rewrite bind_unfold, update_upload_skip by assumption.
  eexists. split; [reflexivity |]. now repeat split.
Qed.

(** X11.  The old file is unlinked before the later uploads are checked and
    the row is committed last: when a replacement cut sheet is accepted and
    the certification sent with it is refused, [product_update] ends with
    the [ValueError], the row is left as it was, and the cut sheet it still
    points to is gone, so its download answers 404. *)
Theorem update_refused_cert_loses_cutsheet
    pid p n b f accepted e form files_ uuids s :
  products s !! pid = Some p ->
  cutsheet_filename p = Some n -> Py.truthy (Some n) = true ->
  files s !! path_join CUTSHEETS_DIR n = Some b ->
  unlink_fails (path_join CUTSHEETS_DIR n) = false ->
  up_cutsheet files_ = Some f -> uploaded (Some f) = true ->
  _validate_cutsheet (Some f) = inr accepted ->
  _safe_unique_name (filename f) (uuids 0%nat) <> n ->
  uploaded (up_cert files_) = true ->
  _validate_cert (up_cert files_) = inl e ->
  let s' := snd (product_update pid form files_ uuids s) in
  fst (product_update pid form files_ uuids s) = inl e
  /\ products s' = products s
  /\ files s' !! path_join CUTSHEETS_DIR n = None
  /\ download_cutsheet pid s' = (inl (NotFound "Cutsheet not found"), s').
Proof.
  intros Hp Hn Htruthy Hold Hunlink Hf Hup Hok Hfresh Hcert Hbad.
  unfold product_update.
  rewrite bind_unfold, get_or_404_run, Hp, Hn, Hf.
  rewrite bind_unfold, (update_upload_replaced _ _ _ _ _ _ _ accepted b)
    by assumption.
  rewrite bind_unfold, (update_upload_refused _ _ _ _ _ _ _ e) by assumption.
  cbv zeta. cbn [fst snd].
  assert (<[path_join CUTSHEETS_DIR
                      (_safe_unique_name (filename f) (uuids 0%nat))
            := stream f]> (delete (path_join CUTSHEETS_DIR n) (files s))
          !! path_join CUTSHEETS_DIR n = None) as Hgone.
  { rewrite lookup_insert_ne by (intros Heq; now apply path_join_inj in Heq).
    apply lookup_delete_eq. }
  split; [reflexivity |]. split; [reflexivity |]. split; [exact Hgone |].
  apply (download_cutsheet_gone pid p (path_join CUTSHEETS_DIR n));
    [exact Hp | | exact Hgone].
  unfold cutsheet_path. now rewrite Hn, Htruthy.
Qed.

(** What one [unlink_if_present] does. *)
Lemma unlink_if_present_run ref s :
  exists disk,
    unlink_if_present ref s
    = (inr tt, mkState (products s) disk (flashes s) (zf s))
    /\ (forall path, ref <> Some path -> disk !! path = files s !! path)
    /\ (forall path, ref = Some path -> unlink_fails path = false ->
                     disk !! path = None)
    /\ (forall path, files s !! path = None -> disk !! path = None).
Proof.
  unfold unlink_if_present. destruct ref as [old |].
  - destruct (files s !! old) as [b |] eqn:Hold;
      [destruct (unlink_fails old) eqn:Hfail |].
    + exists (files s). split; [| split; [trivial | split; [| trivial]]].
      * rewrite state_eta.
        unfold try_except, unlink, path_exists, bind, ret.
        repeat first
          [ rewrite Hold | rewrite Hfail
          | rewrite bool_decide_true by (eexists; reflexivity)
          | progress cbv beta iota ].
        reflexivity.
      * intros path [= ->]. congruence.
    + exists (delete old (files s)). split; [| split; [| split]].
      * unfold try_except, unlink, path_exists, bind, ret.
        repeat first
          [ rewrite Hold | rewrite Hfail
          | rewrite bool_decide_true by (eexists; reflexivity)
          | progress cbv beta iota ].
        reflexivity.
      * intros path Hne. apply lookup_delete_ne. congruence.
      * intros path [= ->] _. apply lookup_delete_eq.
      * intros path Hnone. rewrite lookup_delete. now case_decide.
    + exists (files s). split; [| split; [trivial | split; [| trivial]]].
      * rewrite state_eta. unfold path_exists, bind, ret. rewrite Hold.
        rewrite bool_decide_false by (intros [? ?]; discriminate).
        reflexivity.
      * now intros path [= ->].
  - exists (files s). unfold ret. rewrite state_eta.
    split; [reflexivity |]. split; [trivial |]. split; [| trivial].
    intros path Hnone. discriminate Hnone.
Qed.

Lemma product_delete_run pid p s :
  products s !! pid = Some p ->
  exists disk,
    product_delete pid s
    = (inr (Redirect "index"),
       mkState (delete pid (products s)) disk
               (flashes s ++ [("success", "Product deleted")]) (zf s))
    /\ (forall path, path ∈ record_paths p -> unlink_fails path = false ->
                     disk !! path = None)
    /\ (forall path, path ∉ record_paths p ->
                     disk !! path = files s !! path).
Proof.
  intros Hp. unfold product_delete.
  rewrite bind_unfold, get_or_404_run, Hp.
  destruct (unlink_if_present_run (cutsheet_path p) s)
    as (d1 & Hrun1 & Hout1 & Hgone1 & Hkeep1).
  rewrite bind_unfold, Hrun1.
  destruct (unlink_if_present_run
              (cert_path p) (mkState (products s) d1 (flashes s) (zf s)))
    as (d2 & Hrun2 & Hout2 & Hgone2 & Hkeep2).
  cbn [products files flashes zf] in Hrun2, Hout2, Hgone2, Hkeep2.
  rewrite bind_unfold, Hrun2.
  destruct (unlink_if_present_run
              (image_path p) (mkState (products s) d2 (flashes s) (zf s)))
    as (d3 & Hrun3 & Hout3 & Hgone3 & Hkeep3).
  cbn [products files flashes zf] in Hrun3, Hout3, Hgone3, Hkeep3.
  rewrite bind_unfold, Hrun3.
  exists d3. split; [reflexivity |]. split.
  - intros path Hin Hok.
    unfold record_paths in Hin. simpl in Hin.
    destruct (cutsheet_path p) as [a |] eqn:Ha;
      destruct (cert_path p) as [c |] eqn:Hc;
      destruct (image_path p) as [i |] eqn:Hi; simpl in Hin;
      repeat match goal with
             | Hmem : _ ∈ _ :: _ |- _ =>
                 apply elem_of_cons in Hmem as [-> | Hmem]
             | Hmem : _ ∈ [] |- _ => now apply elem_of_nil in Hmem
             end;
      auto 6.
  - intros path Hout.
    assert (forall ref, (forall q, ref = Some q -> q ∈ record_paths p) ->
                        ref <> Some path) as Hne
      by (intros ref Hin Heq; apply Hout, Hin, Heq).
    rewrite Hout3, Hout2, Hout1; [reflexivity | | |]; apply Hne.
    + apply record_paths_cutsheet.
    + apply record_paths_cert.
    + apply record_paths_image.
Qed.

(** X12.  Deleting a row on which every [unlink] succeeds removes the row
    and each file it referred to, leaves every other stored file with its
    bytes, and flashes "Product deleted". *)
Theorem delete_removes_row_and_files pid p s :
  products s !! pid = Some p ->
  (forall path, path ∈ record_paths p -> unlink_fails path = false) ->
  exists disk,
    product_delete pid s
    = (inr (Redirect "index"),
       mkState (delete pid (products s)) disk
               (flashes s ++ [("success", "Product deleted")]) (zf s))
    /\ (forall path, path ∈ record_paths p -> disk !! path = None)
    /\ (forall path, path ∉ record_paths p ->
                     disk !! path = files s !! path).
Proof.
  intros Hp Hunlink.
  destruct (product_delete_run pid p s Hp) as (disk & Hrun & Hgone & Hout).
  exists disk. split; [exact Hrun |]. split; [| exact Hout].
  intros path Hin. apply Hgone; [exact Hin | now apply Hunlink].
Qed.


End UpdateDeleteFacts.

(** * Further properties: exports against each other, labels, migration *)


Section ExportFacts.

Context {B : Backend}.







End ExportFacts.


(** X19.  The start-up copy of [sku] into [model_number] leaves every row
    with the label it had, and with its name, [sku], notes and three file
    references: what the exports name and read does not change. *)
Theorem migration_keeps_labels table pid p :
  table !! pid = Some p ->
  exists p',
    copy_sku_to_model_number table !! pid = Some p'
    /\ label_of p' = label_of p
    /\ name p' = name p /\ sku p' = sku p /\ notes p' = notes p
    /\ cutsheet_path p' = cutsheet_path p
    /\ cert_path p' = cert_path p
    /\ image_path p' = image_path p.
Proof.
  intros Hp. exists (copy_sku_row p).
  unfold copy_sku_to_model_number. rewrite lookup_fmap, Hp.
  split; [reflexivity |].
  destruct p as [i n k m nt cs ce im].
  unfold copy_sku_row, label_of, py_or, cutsheet_path, cert_path, image_path.
  simpl. destruct k as [k |]; [| now repeat split].
  destruct m as [m |]; simpl.
  - destruct (String.eqb m "") eqn:Hm; simpl; rewrite ?Hm;
      now repeat split.
  - destruct (String.eqb k "") eqn:Hk; simpl; rewrite ?Hk;
      now repeat split.
Qed.


(** * Further properties: from upload to export *)

Lemma lower_char_twice c : Py.lower_char (Py.lower_char c) = Py.lower_char c.
Proof. destruct c as [[|] [|] [|] [|] [|] [|] [|] [|]]; reflexivity. Qed.

Lemma lower_twice s : Py.lower (Py.lower s) = Py.lower s.
Proof.
  unfold Py.lower. rewrite chars_str_of, map_map. f_equal.
  apply map_ext. intros c. apply lower_char_twice.
Qed.

Lemma label_of_created pk name_ model nt cs ce im :
  label_of (mkProduct pk name_ (or_none model) (or_none model) nt cs ce im)
  = or_else model name_.
Proof.
  unfold label_of, py_or, or_none, or_else. simpl.
  destruct (String.eqb model "") eqn:Hm; simpl; [reflexivity |].
  now rewrite Hm.
Qed.

Section UploadToExport.

Context {host : Host} {B : Backend}.

Lemma cert_accepted_has_suffix g accepted :
  _validate_cert (Some g) = inr accepted -> Posix.suffix (filename g) <> "".
Proof.
  intros Hok Hnone. unfold _validate_cert, validate_upload, _ext_ok in Hok.
  destruct (negb (uploaded (Some g))); [discriminate |].
  rewrite Hnone in Hok. discriminate Hok.
Qed.

Lemma download_combined_run s pid p cspath certpath cs ce :
  products s !! pid = Some p ->
  cutsheet_path p = Some cspath -> files s !! cspath = Some cs ->
  cert_path p = Some certpath -> files s !! certpath = Some ce ->
  fst (download_combined pid s)
  = match (if String.eqb (Py.lower (Py.suffix certpath)) ".pdf"
           then inr ce else image_save_pdf ce) with
    | inl e => inl e
    | inr c =>
        match _merge_pdfs_stream [cs; c] with
        | inl e => inl e
        | inr doc =>
            inr (SendFile (Buffer doc) (label_of p +:+ "-combined.pdf"))
        end
    end.
Proof.
  intros Hp Hcs Hcsf Hce Hcef.
  unfold download_combined, get_or_404, query_get, bind, ret, lift,
    _cert_as_pdf_stream, _image_to_pdf_bytes, path_exists, read_bytes.
  repeat first
    [ rewrite Hp | rewrite Hcs | rewrite Hcsf | rewrite Hce | rewrite Hcef
    | rewrite bool_decide_true by (eexists; reflexivity)
    | progress simpl | progress unfold bind, raise ].
  destruct (String.eqb _ ".pdf"); simpl.
  - rewrite Hcef. destruct (_merge_pdfs_stream [cs; ce]); reflexivity.
  - rewrite Hcef. unfold lift.
    destruct (image_save_pdf ce) as [e | c]; [reflexivity |].
    destruct (_merge_pdfs_stream [cs; c]); reflexivity.
Qed.

(** X21.  A product created with an accepted cut sheet and an accepted
    certification can be exported at once: its combined download merges the
    cut sheet bytes the client sent with the certification the client sent,
    taken as it is when it was named [.pdf] in any letter case and converted
    from an image otherwise, and is named after the model number, or after
    the name when there is none. *)
Theorem created_product_exports form files_ uuids pk s f g for_f for_g :
  field (form_name form) <> "" ->
  up_cutsheet files_ = Some f -> uploaded (Some f) = true ->
  _validate_cutsheet (Some f) = inr for_f ->
  up_cert files_ = Some g -> uploaded (Some g) = true ->
  _validate_cert (Some g) = inr for_g ->
  uploaded (up_image files_) = false ->
  let s' := snd (product_create form files_ uuids pk s) in
  let model :=
    Py.strip (py_or (form_model_number form) (py_or (form_sku form) "")) in
  let download_name :=
    or_else model (field (form_name form)) +:+ "-combined.pdf" in
  fst (download_combined pk s')
  = match (if String.eqb (Py.lower (Posix.suffix (filename g))) ".pdf"
           then inr (stream g) else image_save_pdf (stream g)) with
    | inl e => inl e
    | inr c =>
        match _merge_pdfs_stream [stream f; c] with
        | inl e => inl e
        | inr doc => inr (SendFile (Buffer doc) download_name)
        end
    end.
Proof.
  intros Hname Hf Hupf Hokf Hg Hupg Hokg Himg s' model download_name.
  assert (Posix.suffix (filename g) <> "") as Hsuffix.
  { now apply (cert_accepted_has_suffix g for_g). }
  set (csname := _safe_unique_name (filename f) (uuids 0%nat)).
  set (certname := _safe_unique_name (filename g) (uuids 1%nat)).
  assert (exists p,
             s' = mkState (<[pk := p]> (products s))
                          (<[path_join CERTS_DIR certname := stream g]>
                             (<[path_join CUTSHEETS_DIR csname := stream f]>
                                (files s)))
                          (flashes s ++ [("success", "Product created")])
                          (zf s)
             /\ cutsheet_path p = Some (path_join CUTSHEETS_DIR csname)
             /\ cert_path p = Some (path_join CERTS_DIR certname)
             /\ label_of p = or_else model (field (form_name form)))
    as (p & Hs' & Hcspath & Hcertpath & Hlabel).
  { subst s'. unfold product_create.
    apply String.eqb_neq in Hname. rewrite Hname, Hf, Hg.
    rewrite bind_unfold, (create_upload_saved _ _ _ _ _ _ for_f)
      by assumption.
    rewrite bind_unfold, (create_upload_saved _ _ _ _ _ _ for_g)
      by assumption.
    rewrite bind_unfold, create_upload_skip by assumption.
    eexists. split; [reflexivity |].
    unfold cutsheet_path, cert_path. cbn [cutsheet_filename cert_filename fst].
    rewrite !safe_unique_name_truthy.
    split; [reflexivity |]. split; [reflexivity |].
    apply label_of_created. }
  rewrite (download_combined_run s' pk p (path_join CUTSHEETS_DIR csname)
             (path_join CERTS_DIR certname) (stream f) (stream g));
    [| rewrite Hs'; apply lookup_insert_eq | exact Hcspath
     | | exact Hcertpath | rewrite Hs'; apply lookup_insert_eq].
  - subst certname. rewrite stored_path_suffix, lower_twice by assumption.
    now rewrite Hlabel.
  - rewrite Hs'. simpl.
    rewrite lookup_insert_ne
      by (apply not_eq_sym, (upload_dirs_apart csname certname)).
    apply lookup_insert_eq.
Qed.

End UploadToExport.

(** * The further properties on the sample instance *)

Section MoreSamples.

Import Demo DemoHost.

Let both : Uploads := mkUploads (Some sheet) (Some shot) None.
Let bad_cert : Uploads := mkUploads (Some sheet) (Some text) None.
Let only_sheet : Uploads := mkUploads (Some sheet) None None.
Let old_path : string := "uploads/cutsheets/cs-a.pdf".

Lemma cutsheet_upload_valid_as_cert_sample :
  _validate_cutsheet (Some sheet) = inr "Sheet.PDF"
  /\ _validate_cert (Some sheet) = inr "Sheet.PDF".
Proof.
  assert (_validate_cutsheet (Some sheet) = inr "Sheet.PDF") as H
    by (vm_compute; reflexivity).
  split; [exact H |].
  exact (cutsheet_upload_valid_as_cert (Some sheet) "Sheet.PDF" H).
Defined.

Lemma dotfile_upload_rejected_sample :
  (("."%char ∉ Py.chars "pdf") /\ ("/"%char ∉ Py.chars "pdf"))
  /\ _validate_cutsheet (Some (mkFileStorage ".pdf" []))
     = inl (ValueError "Cutsheet must be a PDF.").
Proof.
  assert ("."%char ∉ Py.chars "pdf") as H1
    by (rewrite list_elem_of_In; simpl; intuition discriminate).
  assert ("/"%char ∉ Py.chars "pdf") as H2
    by (rewrite list_elem_of_In; simpl; intuition discriminate).
  split; [split; assumption |].
  exact (proj1 (dotfile_upload_rejected "pdf" [] H1 H2)).
Defined.

Lemma stored_name_keeps_extension_sample :
  Posix.suffix "Sheet.PDF" <> ""
  /\ Py.suffix (path_join CUTSHEETS_DIR (_safe_unique_name "Sheet.PDF" 255))
     = Py.lower (Posix.suffix "Sheet.PDF").
Proof.
  assert (Posix.suffix "Sheet.PDF" <> "") as H
    by (vm_compute; discriminate).
  split; [exact H |].
  exact (stored_name_keeps_extension CUTSHEETS_DIR "Sheet.PDF" 255 H).
Defined.

Lemma stored_names_distinct_sample :
  (0 <= 255 < 2 ^ 128 /\ 0 <= 256 < 2 ^ 128 /\ 255 <> 256)
  /\ _safe_unique_name "Sheet.PDF" 255 <> _safe_unique_name "Sheet.PDF" 256.
Proof.
  assert (0 <= 255 < 2 ^ 128) as H1 by lia.
  assert (0 <= 256 < 2 ^ 128) as H2 by lia.
  assert (255 <> 256) as H3 by lia.
  split; [split; [exact H1 | split; [exact H2 | exact H3]] |].
  exact (stored_names_distinct "Sheet.PDF" 255 256 H1 H2 H3).
Defined.

Lemma create_blank_name_rejected_sample :
  (forall n, form_name blank_form = Some n ->
             Forall (fun c => Py.is_space c = true) (Py.chars n))
  /\ product_create blank_form both draws 9 s0
     = (inr (Redirect "product_new"),
        mkState (products s0) (files s0)
                (flashes s0 ++ [("error", "Name is required")]) (zf s0)).
Proof.
  assert (forall n, form_name blank_form = Some n ->
                    Forall (fun c => Py.is_space c = true) (Py.chars n)) as H
    by (intros n [= <-]; repeat constructor).
  split; [exact H |].
  exact (create_blank_name_rejected blank_form both draws 9 s0 H).
Defined.

Lemma create_stores_uploads_sample :
  (field (form_name form) <> ""
   /\ acceptable _validate_cutsheet (up_cutsheet both)
   /\ acceptable _validate_cert (up_cert both)
   /\ acceptable _validate_image (up_image both))
  /\ exists p s',
      product_create form both draws 9 s0 = (inr (Redirect "index"), s')
      /\ products s' = <[9 := p]> (products s0)
      /\ name p = field (form_name form)
      /\ sku p = model_number p
      /\ stored_as s' (up_cutsheet both) (cutsheet_path p)
      /\ stored_as s' (up_cert both) (cert_path p)
      /\ stored_as s' (up_image both) (image_path p).
Proof.
  assert (field (form_name form) <> "") as H1 by (vm_compute; discriminate).
  assert (acceptable _validate_cutsheet (up_cutsheet both)) as H2
    by (right; eexists; vm_compute; reflexivity).
  assert (acceptable _validate_cert (up_cert both)) as H3
    by (right; eexists; vm_compute; reflexivity).
  assert (acceptable _validate_image (up_image both)) as H4
    by (left; reflexivity).
  split; [repeat split; assumption |].
  exact (create_stores_uploads form both draws 9 s0 H1 H2 H3 H4).
Defined.

Lemma create_refused_cert_leaves_cutsheet_sample :
  (field (form_name form) <> ""
   /\ up_cutsheet bad_cert = Some sheet /\ uploaded (Some sheet) = true
   /\ _validate_cutsheet (Some sheet) = inr "Sheet.PDF"
   /\ uploaded (up_cert bad_cert) = true
   /\ _validate_cert (up_cert bad_cert) = inl refused)
  /\ product_create form bad_cert draws 9 s0
     = (inl refused,
        mkState (products s0)
                (<[path_join CUTSHEETS_DIR
                             (_safe_unique_name (filename sheet) (draws 0%nat))
                   := stream sheet]> (files s0))
                (flashes s0) (zf s0)).
Proof.
  assert (field (form_name form) <> "") as H1 by (vm_compute; discriminate).
  assert (up_cutsheet bad_cert = Some sheet) as H2 by reflexivity.
  assert (uploaded (Some sheet) = true) as H3 by reflexivity.
  assert (_validate_cutsheet (Some sheet) = inr "Sheet.PDF") as H4
    by (vm_compute; reflexivity).
  assert (uploaded (up_cert bad_cert) = true) as H5 by reflexivity.
  assert (_validate_cert (up_cert bad_cert) = inl refused) as H6
    by (vm_compute; reflexivity).
  split; [repeat split; assumption |].
  exact (create_refused_cert_leaves_cutsheet form bad_cert draws 9 s0 sheet
           "Sheet.PDF" refused H1 H2 H3 H4 H5 H6).
Defined.

Lemma update_replaces_cutsheet_sample :
  (products s0 !! 1 = Some pA
   /\ cutsheet_filename pA = Some "cs-a.pdf"
   /\ Py.truthy (Some "cs-a.pdf") = true
   /\ files s0 !! path_join CUTSHEETS_DIR "cs-a.pdf" = Some (encode "%PDFab")
   /\ unlink_fails (path_join CUTSHEETS_DIR "cs-a.pdf") = false
   /\ up_cutsheet only_sheet = Some sheet /\ uploaded (Some sheet) = true
   /\ _validate_cutsheet (Some sheet) = inr "Sheet.PDF"
   /\ uploaded (up_cert only_sheet) = false
   /\ uploaded (up_image only_sheet) = false)
  /\ exists p',
      product_update 1 blank_form only_sheet draws s0
      = (inr (Redirect "index"),
         mkState (<[1 := p']> (products s0))
                 (<[path_join CUTSHEETS_DIR
                              (_safe_unique_name (filename sheet)
                                                 (draws 0%nat))
                    := stream sheet]>
                    (delete (path_join CUTSHEETS_DIR "cs-a.pdf") (files s0)))
                 (flashes s0 ++ [("success", "Product updated")]) (zf s0))
      /\ cutsheet_filename p'
         = Some (_safe_unique_name (filename sheet) (draws 0%nat))
      /\ cert_filename p' = cert_filename pA
      /\ image_filename p' = image_filename pA
      /\ name p' = or_else (field (form_name blank_form)) (name pA)
      /\ sku p' = model_number p'.
Proof.
  assert (products s0 !! 1 = Some pA) as H1 by (vm_compute; reflexivity).
  assert (cutsheet_filename pA = Some "cs-a.pdf") as H2 by reflexivity.
  assert (Py.truthy (Some "cs-a.pdf") = true) as H3 by reflexivity.
  assert (files s0 !! path_join CUTSHEETS_DIR "cs-a.pdf"
          = Some (encode "%PDFab")) as H4 by (vm_compute; reflexivity).
  assert (unlink_fails (path_join CUTSHEETS_DIR "cs-a.pdf") = false) as H5
    by reflexivity.
  assert (up_cutsheet only_sheet = Some sheet) as H6 by reflexivity.
  assert (uploaded (Some sheet) = true) as H7 by reflexivity.
  assert (_validate_cutsheet (Some sheet) = inr "Sheet.PDF") as H8
    by (vm_compute; reflexivity).
  assert (uploaded (up_cert only_sheet) = false) as H9 by reflexivity.
  assert (uploaded (up_image only_sheet) = false) as H10 by reflexivity.
  split; [repeat split; assumption |].
  exact (update_replaces_cutsheet 1 pA "cs-a.pdf" (encode "%PDFab") sheet
           "Sheet.PDF" blank_form only_sheet draws s0
           H1 H2 H3 H4 H5 H6 H7 H8 H9 H10).
Defined.

Lemma update_refused_cert_loses_cutsheet_sample :
  (products s0 !! 1 = Some pA
   /\ cutsheet_filename pA = Some "cs-a.pdf"
   /\ Py.truthy (Some "cs-a.pdf") = true
   /\ files s0 !! path_join CUTSHEETS_DIR "cs-a.pdf" = Some (encode "%PDFab")
   /\ unlink_fails (path_join CUTSHEETS_DIR "cs-a.pdf") = false
   /\ up_cutsheet bad_cert = Some sheet /\ uploaded (Some sheet) = true
   /\ _validate_cutsheet (Some sheet) = inr "Sheet.PDF"
   /\ _safe_unique_name (filename sheet) (draws 0%nat) <> "cs-a.pdf"
   /\ uploaded (up_cert bad_cert) = true
   /\ _validate_cert (up_cert bad_cert) = inl refused)
  /\ fst (product_update 1 form bad_cert draws s0) = inl refused
  /\ products (snd (product_update 1 form bad_cert draws s0)) = products s0
  /\ files (snd (product_update 1 form bad_cert draws s0))
       !! path_join CUTSHEETS_DIR "cs-a.pdf" = None
  /\ download_cutsheet 1 (snd (product_update 1 form bad_cert draws s0))
     = (inl (NotFound "Cutsheet not found"),
        snd (product_update 1 form bad_cert draws s0)).
Proof.
  assert (products s0 !! 1 = Some pA) as H1 by (vm_compute; reflexivity).
  assert (cutsheet_filename pA = Some "cs-a.pdf") as H2 by reflexivity.
  assert (Py.truthy (Some "cs-a.pdf") = true) as H3 by reflexivity.
  assert (files s0 !! path_join CUTSHEETS_DIR "cs-a.pdf"
          = Some (encode "%PDFab")) as H4 by (vm_compute; reflexivity).
  assert (unlink_fails (path_join CUTSHEETS_DIR "cs-a.pdf") = false) as H5
    by reflexivity.
  assert (up_cutsheet bad_cert = Some sheet) as H6 by reflexivity.
  assert (uploaded (Some sheet) = true) as H7 by reflexivity.
  assert (_validate_cutsheet (Some sheet) = inr "Sheet.PDF") as H8
    by (vm_compute; reflexivity).
  assert (_safe_unique_name (filename sheet) (draws 0%nat) <> "cs-a.pdf")
    as H9 by (vm_compute; discriminate).
  assert (uploaded (up_cert bad_cert) = true) as H10 by reflexivity.
  assert (_validate_cert (up_cert bad_cert) = inl refused) as H11
    by (vm_compute; reflexivity).
  split; [repeat split; assumption |].
  exact (update_refused_cert_loses_cutsheet 1 pA "cs-a.pdf" (encode "%PDFab")
           sheet "Sheet.PDF" refused form bad_cert draws s0
           H1 H2 H3 H4 H5 H6 H7 H8 H9 H10 H11).
Defined.

Lemma delete_removes_row_and_files_sample :
  (products s0 !! 1 = Some pA
   /\ forall path, path ∈ record_paths pA -> unlink_fails path = false)
  /\ exists disk,
      product_delete 1 s0
      = (inr (Redirect "index"),
         mkState (delete 1 (products s0)) disk
                 (flashes s0 ++ [("success", "Product deleted")]) (zf s0))
      /\ (forall path, path ∈ record_paths pA -> disk !! path = None)
      /\ (forall path, path ∉ record_paths pA ->
                       disk !! path = files s0 !! path).
Proof.
  assert (products s0 !! 1 = Some pA) as H1 by (vm_compute; reflexivity).
  assert (forall path, path ∈ record_paths pA -> unlink_fails path = false)
    as H2 by (intros path _; reflexivity).
  split; [split; assumption |].
  exact (delete_removes_row_and_files 1 pA s0 H1 H2).
Defined.







Lemma migration_keeps_labels_sample :
  legacy !! 7 = Some legacy_row
  /\ exists p',
      copy_sku_to_model_number legacy !! 7 = Some p'
      /\ label_of p' = label_of legacy_row
      /\ name p' = name legacy_row /\ sku p' = sku legacy_row
      /\ notes p' = notes legacy_row
      /\ cutsheet_path p' = cutsheet_path legacy_row
      /\ cert_path p' = cert_path legacy_row
      /\ image_path p' = image_path legacy_row.
Proof.
  assert (legacy !! 7 = Some legacy_row) as H by (vm_compute; reflexivity).
  split; [exact H |].
  exact (migration_keeps_labels legacy 7 legacy_row H).
Defined.


Lemma created_product_exports_sample :
  (field (form_name form) <> ""
   /\ up_cutsheet both = Some sheet /\ uploaded (Some sheet) = true
   /\ _validate_cutsheet (Some sheet) = inr "Sheet.PDF"
   /\ up_cert both = Some shot /\ uploaded (Some shot) = true
   /\ _validate_cert (Some shot) = inr "shot.png"
   /\ uploaded (up_image both) = false)
  /\ fst (download_combined 9 (snd (product_create form both draws 9 s0)))
     = inr (SendFile (Buffer (encode "%PDFqi")) "L-1-combined.pdf").
Proof.
  assert (field (form_name form) <> "") as H1 by (vm_compute; discriminate).
  assert (up_cutsheet both = Some sheet) as H2 by reflexivity.
  assert (uploaded (Some sheet) = true) as H3 by reflexivity.
  assert (_validate_cutsheet (Some sheet) = inr "Sheet.PDF") as H4
    by (vm_compute; reflexivity).
  assert (up_cert both = Some shot) as H5 by reflexivity.
  assert (uploaded (Some shot) = true) as H6 by reflexivity.
  assert (_validate_cert (Some shot) = inr "shot.png") as H7
    by (vm_compute; reflexivity).
  assert (uploaded (up_image both) = false) as H8 by reflexivity.
  split; [repeat split; assumption |].
  rewrite (created_product_exports form both draws 9 s0 sheet shot
             "Sheet.PDF" "shot.png" H1 H2 H3 H4 H5 H6 H7 H8).
  vm_compute. reflexivity.
Defined.

End MoreSamples.
